(** * Watson node-sdk service facades: request construction

    A shallow embedding of the generated service facades
    (PersonalityInsightsV3Generated, PersonalityInsightsV3, ToneAnalyzerV3,
    VisualRecognitionV3): JavaScript values, the [extend] merge the facades
    apply to their configuration, the constructors and every operation,
    followed by the properties of the request descriptors they build. *)

From Stdlib Require Import String Ascii List ZArith Bool.
From stdpp Require Import base option list gmap strings.

Import ListNotations.
Local Open Scope string_scope.
Local Set Warnings "-register-all".

(** ** JavaScript values *)

Module JS.

(** The fragment of JavaScript values the facades handle: primitives, arrays,
    plain objects (property lists in insertion order) and references to
    non-plain objects (streams, buffers). *)
Inductive value : Type :=
| VUndefined
| VNull
| VBool (b : bool)
| VNum (n : Z)
| VStr (s : string)
| VArr (items : list value)
| VObj (fields : list (string * value))
| VRef (id : nat).

Definition obj : Type := list (string * value).

(** [o.k], the first binding of [k]; [undefined] when there is none. *)
Fixpoint get (o : obj) (k : string) : value :=
  match o with
  | [] => VUndefined
  | (k', v) :: rest => if String.eqb k' k then v else get rest k
  end.

(** [k in o] *)
Fixpoint has_key (o : obj) (k : string) : bool :=
  match o with
  | [] => false
  | (k', _) :: rest => if String.eqb k' k then true else has_key rest k
  end.

(** [o.k = v]: replaces the binding in place, or appends a new one. *)
Fixpoint set (o : obj) (k : string) (v : value) : obj :=
  match o with
  | [] => [(k, v)]
  | (k', v') :: rest =>
      if String.eqb k' k then (k', v) :: rest else (k', v') :: set rest k v
  end.

(** [typeof v === 'undefined'] *)
Definition is_undefined (v : value) : bool :=
  match v with VUndefined => true | _ => false end.

(** [v === s] for a string literal [s]: strict equality, no coercion. *)
Definition strict_eq_str (v : value) (s : string) : bool :=
  match v with VStr t => String.eqb t s | _ => false end.

(** [src && isPlainObject(src) ? src : {}] *)
Definition plain_or_empty (src : value) : obj :=
  match src with VObj o => o | _ => [] end.

(** [src && isArray(src) ? src : []] *)
Definition array_or_empty (src : value) : list value :=
  match src with VArr a => a | _ => [] end.

(** Array slot write [a[i] = v] for the next index of a left-to-right pass:
    [slot] is the old slot when the array reaches that far. *)
Definition keep_slot (slot : option value) (rest : list value) : list value :=
  match slot, rest with
  | Some v, _ => v :: rest
  | None, [] => []
  | None, _ :: _ => VUndefined :: rest
  end.

(** The [extend] package, [extend(deep, target, source)]: every property of
    [source] is copied onto [target]; with [deep], plain objects and arrays are
    merged recursively into a clone of what the target holds under that name;
    properties whose value is [undefined] are not brought in.  The result is
    the target itself, modified.  [merge_into] is the loop body: the new
    content of the target for one source value. *)
Fixpoint merge_into (deep : bool) (target : value) (source : value)
  {struct source} : value :=
  match source with
  | VObj fields =>
      VObj ((fix props (t : obj) (fs : list (string * value)) {struct fs} : obj :=
               match fs with
               | [] => t
               | (name, copy) :: rest =>
                   props
                     (match copy with
                      | VUndefined => t
                      | VObj _ =>
                          if deep
                          then set t name
                                 (merge_into deep (VObj (plain_or_empty (get t name))) copy)
                          else set t name copy
                      | VArr _ =>
                          if deep
                          then set t name
                                 (merge_into deep (VArr (array_or_empty (get t name))) copy)
                          else set t name copy
                      | _ => set t name copy
                      end)
                     rest
               end) (plain_or_empty target) fields)
  | VArr items =>
      VArr ((fix slots (t : list value) (cs : list value) {struct cs} : list value :=
               match cs with
               | [] => t
               | copy :: rest =>
                   let old := match t with [] => None | x :: _ => Some x end in
                   let new :=
                     match copy with
                     | VUndefined => old
                     | VObj _ =>
                         if deep
                         then Some (merge_into deep
                                      (VObj (plain_or_empty (default VUndefined old))) copy)
                         else Some copy
                     | VArr _ =>
                         if deep
                         then Some (merge_into deep
                                      (VArr (array_or_empty (default VUndefined old))) copy)
                         else Some copy
                     | _ => Some copy
                     end in
                   keep_slot new (slots (tl t) rest)
               end) (array_or_empty target) items)
  | _ => target
  end.

Definition extend (deep : bool) (target source : obj) : obj :=
  plain_or_empty (merge_into deep (VObj target) (VObj source)).

(** One iteration of [extend]'s loop over the source's properties. *)
Definition assign (deep : bool) (t : obj) (name : string) (copy : value) : obj :=
  match copy with
  | VUndefined => t
  | VObj c =>
      if deep then set t name (VObj (extend deep (plain_or_empty (get t name)) c))
      else set t name copy
  | VArr _ =>
      if deep
      then set t name (merge_into deep (VArr (array_or_empty (get t name))) copy)
      else set t name copy
  | _ => set t name copy
  end.

End JS.

Import JS.

(** ** Parameters, callbacks and what an operation does *)

(** The [params] argument of an operation is only read by key: a finite map
    from parameter names to values.  A key may be bound to [undefined]. *)
Abbreviation Params := (gmap string value).

(** [params.k] *)
Definition prop (P : Params) (k : string) : value := default VUndefined (P !! k).

(** Callbacks are only passed on or invoked: an identity is all that matters. *)
Inductive Callback : Type := Handler (id : nat).

Inductive error : Type :=
| Error (message : string)   (* throw new Error(message) *)
| TypeError.                 (* property access on undefined *)

(** The object handed to the request helper. [defaultOptions] is the very
    object [this._options], as [extend] returns its target. *)
Record parameters : Type := Parameters {
  options : obj;
  defaultOptions : obj
}.

(** What a facade method ends in: [return callback(missingParams)] or
    [return requestFactory(parameters, callback)]. *)
Inductive effect : Type :=
| CallbackInvoked (cb : Callback) (missingParams : list string)
| RequestForwarded (p : parameters) (cb : option Callback).

(** ** A state and exception monad over [this._options] *)

Inductive completion (A : Type) : Type :=
| Normal (a : A)
| Throw (e : error).
Arguments Normal {A} a.
Arguments Throw {A} e.

Definition M (A : Type) : Type := obj -> completion A * obj.

Definition ret {A} (a : A) : M A := fun o => (Normal a, o).

Definition bind {A B} (m : M A) (k : A -> M B) : M B :=
  fun o => match m o with
           | (Normal a, o') => k a o'
           | (Throw e, o') => (Throw e, o')
           end.

Definition throw {A} (e : error) : M A := fun o => (Throw e, o).

Notation "'let*' x := m 'in' k" := (bind m (fun x => k))
  (at level 10, x name, m at level 100, k at level 200, only parsing).

(** [extend(true, this._options, source)]: the target is the instance's own
    configuration object, which is modified and returned. *)
Definition extend_this_options (source : obj) : M obj :=
  fun _options => let merged := extend true _options source in (Normal merged, merged).

(** The first property read on [params]; it raises when [params] is
    [undefined]. *)
Definition deref (params : option Params) : M Params :=
  match params with
  | Some P => ret P
  | None => throw TypeError
  end.

(** ** Helpers of [lib/helper] and [lib/base_service] *)

(** Modelled from the spec: the test [helper.getMissingParams] applies to
    each required key ([lib/helper] is not among the sources).  A key is
    missing when the mapping has no such key or binds it to [undefined];
    [false], [0] and the empty string are provided values. *)
Definition isMissing (P : Params) (k : string) : bool :=
  match P !! k with
  | None => true
  | Some v => is_undefined v
  end.

(** Modelled from the spec: [helper.getMissingParams] ([lib/helper]) is not
    among the sources.  It walks the required names in order and collects
    the missing ones. *)
Definition getMissingParams (P : Params) (requires : list string) : list string :=
  fold_left (fun missing k => if isMissing P k then (missing ++ [k])%list else missing)
            requires [].

(** The facades test the helper's result for truthiness
    ([missingParams && callback]); the empty sequence means validation
    passed. *)
Definition reported (missingParams : list string) : bool :=
  match missingParams with [] => false | _ :: _ => true end.

(** Modelled from the spec: [helper.buildRequestFileObject] ([lib/helper]) is
    not among the sources.  It yields the binary-attachment descriptor of a
    form field, carrying the data and the content type it is given. *)
Definition buildRequestFileObject (data : value) (contentType : string) : value :=
  VObj [("data", data); ("contentType", VStr contentType)].

(** Modelled from the spec: [BaseService] ([lib/base_service]) is not among
    the sources.  It stores the caller's options, merged over the service's
    default base URL and an empty mapping of query-string defaults, as
    [this._options]. *)
Definition BaseService (URL : string) (options : obj) : obj :=
  extend false [("qs", VObj []); ("url", VStr URL)] options.

(** [this._options.qs.version = v] in strict mode: [qs] must be an object.  A
    property written onto an array or a non-plain object is not tracked. *)
Definition set_qs_version (_options : obj) (v : value) : completion obj :=
  match get _options "qs" with
  | VObj qs => Normal (set _options "qs" (VObj (set qs "version" v)))
  | VArr _ | VRef _ => Normal _options
  | _ => Throw TypeError
  end.

(** ** Personality Insights *)

Module PersonalityInsightsV3Generated.

Definition URL : string := "https://gateway.watsonplatform.net/personality-insights/api".

Definition constructor (options : obj) : completion obj :=
  let _options := BaseService URL options in
  (* check if 'version_date' was provided *)
  if is_undefined (get _options "version_date")
  then Throw (Error "Argument error: version_date was not specified")
  else set_qs_version _options (get options "version_date").

Definition profile (params : option Params) (callback : option Callback) : M effect :=
  let requiredParams := ["content"; "content_type"] in
  let missingParams := getMissingParams (default ∅ params) requiredParams in
  match reported missingParams, callback with
  | true, Some cb => ret (CallbackInvoked cb missingParams)
  | _, _ =>
      let* params := deref params in
      let body := prop params "content" in
      let query := [("raw_scores", prop params "raw_scores");
                    ("csv_headers", prop params "csv_headers");
                    ("consumption_preferences", prop params "consumption_preferences")] in
      let options := [("url", VStr "/v3/profile");
                      ("method", VStr "POST");
                      ("json", VBool (strict_eq_str (prop params "content_type") "application/json"));
                      ("body", body);
                      ("qs", VObj query)] in
      let* defaultOptions :=
        extend_this_options
          [("headers", VObj [("accept", VStr "application/json");
                             ("content-type", prop params "content_type");
                             ("content-language", prop params "content_language");
                             ("accept-language", prop params "accept_language")])] in
      ret (RequestForwarded (Parameters options defaultOptions) callback)
  end.

End PersonalityInsightsV3Generated.

Module PersonalityInsightsV3.

(** [class PersonalityInsightsV3 extends PersonalityInsightsV3Generated] *)
Definition constructor := PersonalityInsightsV3Generated.constructor.
Definition profile := PersonalityInsightsV3Generated.profile.

Definition profile_csv (params : option Params) (callback : option Callback) : M effect :=
  let requiredParams := ["content"; "content_type"] in
  let missingParams := getMissingParams (default ∅ params) requiredParams in
  match reported missingParams, callback with
  | true, Some cb => ret (CallbackInvoked cb missingParams)
  | _, _ =>
      let* params := deref params in
      let body := prop params "content" in
      let query := [("raw_scores", prop params "raw_scores");
                    ("csv_headers", prop params "csv_headers");
                    ("consumption_preferences", prop params "consumption_preferences")] in
      let options := [("url", VStr "/v3/profile");
                      ("method", VStr "POST");
                      ("json", VBool (strict_eq_str (prop params "content_type") "application/json"));
                      ("body", body);
                      ("qs", VObj query)] in
      let* defaultOptions :=
        extend_this_options
          [("headers", VObj [("accept", VStr "text/csv");
                             ("content-type", prop params "content_type");
                             ("content-language", prop params "content_language");
                             ("accept-language", prop params "accept_language")])] in
      ret (RequestForwarded (Parameters options defaultOptions) callback)
  end.

End PersonalityInsightsV3.

(** ** Tone Analyzer *)

Module ToneAnalyzerV3.

Definition URL : string := "https://gateway.watsonplatform.net/tone-analyzer/api".

Definition constructor (options : obj) : completion obj :=
  let _options := BaseService URL options in
  (* check if 'version_date' was provided *)
  if is_undefined (get _options "version_date")
  then Throw (Error "Argument error: version_date was not specified, use ")
  else set_qs_version _options (get options "version_date").

Definition tone (params : option Params) (callback : option Callback) : M effect :=
  let requiredParams := ["tone_input"; "content_type"] in
  let missingParams := getMissingParams (default ∅ params) requiredParams in
  match reported missingParams, callback with
  | true, Some cb => ret (CallbackInvoked cb missingParams)
  | _, _ =>
      let* params := deref params in
      let body := prop params "tone_input" in
      let query := [("sentences", prop params "sentences");
                    ("tones", prop params "tones")] in
      let options := [("url", VStr "/v3/tone");
                      ("method", VStr "POST");
                      ("json", VBool (strict_eq_str (prop params "content_type") "application/json"));
                      ("body", body);
                      ("qs", VObj query)] in
      let* defaultOptions :=
        extend_this_options
          [("headers", VObj [("accept", VStr "application/json");
                             ("content-type", prop params "content_type");
                             ("content-language", prop params "content_language");
                             ("accept-language", prop params "accept_language")])] in
      ret (RequestForwarded (Parameters options defaultOptions) callback)
  end.

Definition toneChat (params : option Params) (callback : option Callback) : M effect :=
  let requiredParams := ["utterances"] in
  let missingParams := getMissingParams (default ∅ params) requiredParams in
  match reported missingParams, callback with
  | true, Some cb => ret (CallbackInvoked cb missingParams)
  | _, _ =>
      let* params := deref params in
      let body := VObj [("utterances", prop params "utterances")] in
      let options := [("url", VStr "/v3/tone_chat");
                      ("method", VStr "POST");
                      ("json", VBool true);
                      ("body", body)] in
      let* defaultOptions :=
        extend_this_options
          [("headers", VObj [("accept", VStr "application/json");
                             ("content-type", VStr "application/json");
                             ("accept-language", prop params "accept_language")])] in
      ret (RequestForwarded (Parameters options defaultOptions) callback)
  end.

End ToneAnalyzerV3.

(** ** Visual Recognition *)

Module VisualRecognitionV3.

Definition URL : string := "https://gateway.watsonplatform.net/visual-recognition/api".

Definition constructor (options : obj) : completion obj :=
  let _options := BaseService URL options in
  (* check if 'version_date' was provided *)
  if is_undefined (get _options "version_date")
  then Throw (Error "Argument error: version_date was not specified")
  else set_qs_version _options (get options "version_date").

(** The first argument of the operations whose [params] are optional: it may
    be left out, or be the callback itself. *)
Inductive argument : Type :=
| ArgUndefined
| ArgParams (P : Params)
| ArgFunction (f : Callback).

(** [params = params || {};
     if (typeof params === 'function' && !callback) { callback = params; params = {}; }]
    A function that stays in [params] has none of the properties read
    afterwards. *)
Definition shift_callback (params : argument) (callback : option Callback)
  : Params * option Callback :=
  match params, callback with
  | ArgUndefined, _ => (∅, callback)
  | ArgParams P, _ => (P, callback)
  | ArgFunction f, None => (∅, Some f)
  | ArgFunction _, Some _ => (∅, callback)
  end.

(** The JavaScript literal ['"application/octet-stream"']: the text between
    the single quotes, double quotes included. *)
Definition quote : ascii := ascii_of_nat 34.
Definition quoted_octet_stream : string :=
  String quote ("application/octet-stream" ++ String quote EmptyString).

Definition classify (params : argument) (callback : option Callback) : M effect :=
  let '(params, callback) := shift_callback params callback in
  let formData :=
    [("images_file", buildRequestFileObject (prop params "images_file") quoted_octet_stream);
     ("parameters", prop params "parameters")] in
  let options := [("url", VStr "/v3/classify");
                  ("method", VStr "POST");
                  ("formData", VObj formData)] in
  let* defaultOptions :=
    extend_this_options
      [("headers", VObj [("accept", VStr "application/json");
                         ("content-type", VStr "multipart/form-data");
                         ("accept_language", prop params "accept_language")])] in
  ret (RequestForwarded (Parameters options defaultOptions) callback).

Definition detectFaces (params : argument) (callback : option Callback) : M effect :=
  let '(params, callback) := shift_callback params callback in
  let formData :=
    [("images_file", buildRequestFileObject (prop params "images_file") quoted_octet_stream);
     ("parameters", prop params "parameters")] in
  let options := [("url", VStr "/v3/detect_faces");
                  ("method", VStr "POST");
                  ("formData", VObj formData)] in
  let* defaultOptions :=
    extend_this_options
      [("headers", VObj [("accept", VStr "application/json");
                         ("content-type", VStr "multipart/form-data")])] in
  ret (RequestForwarded (Parameters options defaultOptions) callback).

Definition createClassifier (params : option Params) (callback : option Callback) : M effect :=
  let requiredParams := ["name"; "classname_positive_examples"] in
  let missingParams := getMissingParams (default ∅ params) requiredParams in
  match reported missingParams, callback with
  | true, Some cb => ret (CallbackInvoked cb missingParams)
  | _, _ =>
      let* params := deref params in
      let formData :=
        [("name", prop params "name");
         ("classname_positive_examples",
          buildRequestFileObject (prop params "classname_positive_examples")
                                 "application/octet-stream");
         ("negative_examples",
          buildRequestFileObject (prop params "negative_examples")
                                 "application/octet-stream")] in
      let options := [("url", VStr "/v3/classifiers");
                      ("method", VStr "POST");
                      ("formData", VObj formData)] in
      let* defaultOptions :=
        extend_this_options
          [("headers", VObj [("accept", VStr "application/json");
                             ("content-type", VStr "multipart/form-data")])] in
      ret (RequestForwarded (Parameters options defaultOptions) callback)
  end.

Definition deleteClassifier (params : option Params) (callback : option Callback) : M effect :=
  let requiredParams := ["classifier_id"] in
  let missingParams := getMissingParams (default ∅ params) requiredParams in
  match reported missingParams, callback with
  | true, Some cb => ret (CallbackInvoked cb missingParams)
  | _, _ =>
      let* params := deref params in
      let path := [("classifier_id", prop params "classifier_id")] in
      let options := [("url", VStr "/v3/classifiers/{classifier_id}");
                      ("method", VStr "DELETE");
                      ("path", VObj path)] in
      let* defaultOptions :=
        extend_this_options
          [("headers", VObj [("accept", VStr "application/json");
                             ("content-type", VStr "application/json")])] in
      ret (RequestForwarded (Parameters options defaultOptions) callback)
  end.

Definition getClassifier (params : option Params) (callback : option Callback) : M effect :=
  let requiredParams := ["classifier_id"] in
  let missingParams := getMissingParams (default ∅ params) requiredParams in
  match reported missingParams, callback with
  | true, Some cb => ret (CallbackInvoked cb missingParams)
  | _, _ =>
      let* params := deref params in
      let path := [("classifier_id", prop params "classifier_id")] in
      let options := [("url", VStr "/v3/classifiers/{classifier_id}");
                      ("method", VStr "GET");
                      ("path", VObj path)] in
      let* defaultOptions :=
        extend_this_options
          [("headers", VObj [("accept", VStr "application/json");
                             ("content-type", VStr "application/json")])] in
      ret (RequestForwarded (Parameters options defaultOptions) callback)
  end.

Definition listClassifiers (params : argument) (callback : option Callback) : M effect :=
  let '(params, callback) := shift_callback params callback in
  let query := [("verbose", prop params "verbose")] in
  let options := [("url", VStr "/v3/classifiers");
                  ("method", VStr "GET");
                  ("qs", VObj query)] in
  let* defaultOptions :=
    extend_this_options
      [("headers", VObj [("accept", VStr "application/json");
                         ("content-type", VStr "application/json")])] in
  ret (RequestForwarded (Parameters options defaultOptions) callback).

Definition updateClassifier (params : option Params) (callback : option Callback) : M effect :=
  let requiredParams := ["classifier_id"] in
  let missingParams := getMissingParams (default ∅ params) requiredParams in
  match reported missingParams, callback with
  | true, Some cb => ret (CallbackInvoked cb missingParams)
  | _, _ =>
      let* params := deref params in
      let formData :=
        [("classname_positive_examples",
          buildRequestFileObject (prop params "classname_positive_examples")
                                 "application/octet-stream");
         ("negative_examples",
          buildRequestFileObject (prop params "negative_examples")
                                 "application/octet-stream")] in
      let path := [("classifier_id", prop params "classifier_id")] in
      let options := [("url", VStr "/v3/classifiers/{classifier_id}");
                      ("method", VStr "POST");
                      ("path", VObj path);
                      ("formData", VObj formData)] in
      let* defaultOptions :=
        extend_this_options
          [("headers", VObj [("accept", VStr "application/json");
                             ("content-type", VStr "multipart/form-data")])] in
      ret (RequestForwarded (Parameters options defaultOptions) callback)
  end.

End VisualRecognitionV3.

(** ** Operations by name *)

(** The operations that declare a list of required parameters. *)
Inductive validated_operation : Type :=
| OpProfile
| OpProfileCsv
| OpTone
| OpToneChat
| OpCreateClassifier
| OpDeleteClassifier
| OpGetClassifier
| OpUpdateClassifier.

(** The [requiredParams] constant of each of them. *)
Definition requiredParams (op : validated_operation) : list string :=
  match op with
  | OpProfile | OpProfileCsv => ["content"; "content_type"]
  | OpTone => ["tone_input"; "content_type"]
  | OpToneChat => ["utterances"]
  | OpCreateClassifier => ["name"; "classname_positive_examples"]
  | OpDeleteClassifier | OpGetClassifier | OpUpdateClassifier => ["classifier_id"]
  end.

Definition invoke (op : validated_operation)
  : option Params -> option Callback -> M effect :=
  match op with
  | OpProfile => PersonalityInsightsV3.profile
  | OpProfileCsv => PersonalityInsightsV3.profile_csv
  | OpTone => ToneAnalyzerV3.tone
  | OpToneChat => ToneAnalyzerV3.toneChat
  | OpCreateClassifier => VisualRecognitionV3.createClassifier
  | OpDeleteClassifier => VisualRecognitionV3.deleteClassifier
  | OpGetClassifier => VisualRecognitionV3.getClassifier
  | OpUpdateClassifier => VisualRecognitionV3.updateClassifier
  end.

(** A method call on a facade instance. *)
Inductive call : Type :=
| Validated (op : validated_operation) (params : option Params) (callback : option Callback)
| Classify (params : VisualRecognitionV3.argument) (callback : option Callback)
| DetectFaces (params : VisualRecognitionV3.argument) (callback : option Callback)
| ListClassifiers (params : VisualRecognitionV3.argument) (callback : option Callback).

Definition perform (c : call) : M effect :=
  match c with
  | Validated op params callback => invoke op params callback
  | Classify params callback => VisualRecognitionV3.classify params callback
  | DetectFaces params callback => VisualRecognitionV3.detectFaces params callback
  | ListClassifiers params callback => VisualRecognitionV3.listClassifiers params callback
  end.

(** A sequence of calls on one instance, each seeing the configuration the
    previous ones left. *)
Fixpoint run (calls : list call) (_options : obj) : list (completion effect) * obj :=
  match calls with
  | [] => ([], _options)
  | c :: rest =>
      let '(r, _options) := perform c _options in
      let '(rs, _options) := run rest _options in
      (r :: rs, _options)
  end.

(** The mapping a call reads its parameters from. *)
Definition call_params (c : call) : Params :=
  match c with
  | Validated _ params _ => default ∅ params
  | Classify params callback
  | DetectFaces params callback
  | ListClassifiers params callback => fst (VisualRecognitionV3.shift_callback params callback)
  end.

(** The optional parameters of each operation, by where its schema sends
    them: the query string, a plain form field, or a file part of the form. *)
Definition optional_query_keys (c : call) : list string :=
  match c with
  | Validated (OpProfile | OpProfileCsv) _ _ =>
      ["raw_scores"; "csv_headers"; "consumption_preferences"]
  | Validated OpTone _ _ => ["sentences"; "tones"]
  | ListClassifiers _ _ => ["verbose"]
  | _ => []
  end.

Definition optional_form_keys (c : call) : list string :=
  match c with
  | Classify _ _ | DetectFaces _ _ => ["parameters"]
  | _ => []
  end.

Definition optional_file_keys (c : call) : list string :=
  match c with
  | Classify _ _ | DetectFaces _ _ => ["images_file"]
  | Validated OpCreateClassifier _ _ => ["negative_examples"]
  | Validated OpUpdateClassifier _ _ => ["classname_positive_examples"; "negative_examples"]
  | _ => []
  end.

(** Every property name of an object occurs once. *)
Fixpoint unique_keys (o : obj) : bool :=
  match o with
  | [] => true
  | (k, _) :: rest => negb (has_key rest k) && unique_keys rest
  end.

(** ** Construction by facade *)

Inductive facade : Type :=
| PersonalityInsights
| ToneAnalyzer
| VisualRecognition.

Definition construct (f : facade) : obj -> completion obj :=
  match f with
  | PersonalityInsights => PersonalityInsightsV3.constructor
  | ToneAnalyzer => ToneAnalyzerV3.constructor
  | VisualRecognition => VisualRecognitionV3.constructor
  end.

(** The message of the error each constructor throws. *)
Definition version_date_error (f : facade) : error :=
  match f with
  | PersonalityInsights | VisualRecognition =>
      Error "Argument error: version_date was not specified"
  | ToneAnalyzer =>
      Error "Argument error: version_date was not specified, use "
  end.

(** ** Headers by call *)

(** The [headers] literal each operation merges into the configuration. *)
Definition call_headers (c : call) : obj :=
  let params := call_params c in
  match c with
  | Validated OpProfile _ _ | Validated OpTone _ _ =>
      [("accept", VStr "application/json");
       ("content-type", prop params "content_type");
       ("content-language", prop params "content_language");
       ("accept-language", prop params "accept_language")]
  | Validated OpProfileCsv _ _ =>
      [("accept", VStr "text/csv");
       ("content-type", prop params "content_type");
       ("content-language", prop params "content_language");
       ("accept-language", prop params "accept_language")]
  | Validated OpToneChat _ _ =>
      [("accept", VStr "application/json");
       ("content-type", VStr "application/json");
       ("accept-language", prop params "accept_language")]
  | Classify _ _ =>
      [("accept", VStr "application/json");
       ("content-type", VStr "multipart/form-data");
       ("accept_language", prop params "accept_language")]
  | DetectFaces _ _
  | Validated OpCreateClassifier _ _
  | Validated OpUpdateClassifier _ _ =>
      [("accept", VStr "application/json");
       ("content-type", VStr "multipart/form-data")]
  | Validated OpDeleteClassifier _ _
  | Validated OpGetClassifier _ _
  | ListClassifiers _ _ =>
      [("accept", VStr "application/json");
       ("content-type", VStr "application/json")]
  end.

(** A value [extend] stores as it is: neither a plain object nor an array. *)
Definition is_scalar (v : value) : bool :=
  match v with
  | VObj _ | VArr _ => false
  | _ => true
  end.

(** ** Request options by operation *)

(** The [options] literal each operation with a required-parameter list
    assembles from its parameters: [url], [method] and, by the operation's
    schema, the [json] flag and [body], the query string, the path parameters
    or the form data. *)
Definition request_options (op : validated_operation) (params : Params) : obj :=
  match op with
  | OpProfile | OpProfileCsv =>
      [("url", VStr "/v3/profile");
       ("method", VStr "POST");
       ("json", VBool (strict_eq_str (prop params "content_type") "application/json"));
       ("body", prop params "content");
       ("qs", VObj [("raw_scores", prop params "raw_scores");
                    ("csv_headers", prop params "csv_headers");
                    ("consumption_preferences", prop params "consumption_preferences")])]
  | OpTone =>
      [("url", VStr "/v3/tone");
       ("method", VStr "POST");
       ("json", VBool (strict_eq_str (prop params "content_type") "application/json"));
       ("body", prop params "tone_input");
       ("qs", VObj [("sentences", prop params "sentences");
                    ("tones", prop params "tones")])]
  | OpToneChat =>
      [("url", VStr "/v3/tone_chat");
       ("method", VStr "POST");
       ("json", VBool true);
       ("body", VObj [("utterances", prop params "utterances")])]
  | OpCreateClassifier =>
      [("url", VStr "/v3/classifiers");
       ("method", VStr "POST");
       ("formData",
        VObj [("name", prop params "name");
              ("classname_positive_examples",
               buildRequestFileObject (prop params "classname_positive_examples")
                                      "application/octet-stream");
              ("negative_examples",
               buildRequestFileObject (prop params "negative_examples")
                                      "application/octet-stream")])]
  | OpDeleteClassifier =>
      [("url", VStr "/v3/classifiers/{classifier_id}");
       ("method", VStr "DELETE");
       ("path", VObj [("classifier_id", prop params "classifier_id")])]
  | OpGetClassifier =>
      [("url", VStr "/v3/classifiers/{classifier_id}");
       ("method", VStr "GET");
       ("path", VObj [("classifier_id", prop params "classifier_id")])]
  | OpUpdateClassifier =>
      [("url", VStr "/v3/classifiers/{classifier_id}");
       ("method", VStr "POST");
       ("path", VObj [("classifier_id", prop params "classifier_id")]);
       ("formData",
        VObj [("classname_positive_examples",
               buildRequestFileObject (prop params "classname_positive_examples")
                                      "application/octet-stream");
              ("negative_examples",
               buildRequestFileObject (prop params "negative_examples")
                                      "application/octet-stream")])]
  end.

(** ** A sample instance *)

Definition sample_options : obj :=
  [("version_date", VStr "2017-10-13"); ("username", VStr "apikey");
   ("password", VStr "secret")].

(** The configuration of a facade freshly constructed from [sample_options]. *)
Definition sample_instance (f : facade) : obj :=
  match construct f sample_options with
  | Normal _options => _options
  | Throw _ => []
  end.

(** ** Proof automation *)

(** Unfolds a method to its body. *)
Ltac unfold_operation :=
  unfold perform, invoke,
    PersonalityInsightsV3.profile, PersonalityInsightsV3Generated.profile,
    PersonalityInsightsV3.profile_csv,
    ToneAnalyzerV3.tone, ToneAnalyzerV3.toneChat,
    VisualRecognitionV3.classify, VisualRecognitionV3.detectFaces,
    VisualRecognitionV3.createClassifier, VisualRecognitionV3.deleteClassifier,
    VisualRecognitionV3.getClassifier, VisualRecognitionV3.listClassifiers,
    VisualRecognitionV3.updateClassifier.

(** Runs the monad's plumbing. *)
Ltac run_monad :=
  cbv beta iota zeta delta [bind ret throw deref extend_this_options].

(** Two distinct property names, given as literals. *)
Ltac distinct_names := let H := fresh in intros H; discriminate H.

(** From [H : method ... = (Normal (RequestForwarded p cb), o)], recovers the
    descriptor [p] the method built. *)
Ltac forwarded_descriptor H :=
  unfold perform, invoke,
    PersonalityInsightsV3.profile, PersonalityInsightsV3Generated.profile,
    PersonalityInsightsV3.profile_csv,
    ToneAnalyzerV3.tone, ToneAnalyzerV3.toneChat,
    VisualRecognitionV3.classify, VisualRecognitionV3.detectFaces,
    VisualRecognitionV3.createClassifier, VisualRecognitionV3.deleteClassifier,
    VisualRecognitionV3.getClassifier, VisualRecognitionV3.listClassifiers,
    VisualRecognitionV3.updateClassifier in H;
  cbv zeta in H;
  repeat match type of H with
         | context [VisualRecognitionV3.shift_callback ?a ?c] =>
             destruct (VisualRecognitionV3.shift_callback a c)
         | context [reported ?m] => destruct (reported m)
         | context [match ?c with Some _ => _ | None => _ end] => destruct c
         end;
  cbv beta iota zeta delta [bind ret throw deref extend_this_options] in H;
  try discriminate H;
  simplify_eq.

(** Case analysis on membership in a literal list of keys. *)
Ltac each_key Hk :=
  repeat (apply elem_of_cons in Hk as [->|Hk]);
  try (by apply elem_of_nil in Hk).

(** * Properties *)

(** ** Objects and [extend] *)

Lemma extend_nil deep t : extend deep t [] = t.
Proof. reflexivity. Qed.

Lemma extend_cons deep t name copy rest :
  extend deep t ((name, copy) :: rest) = extend deep (assign deep t name copy) rest.
Proof. destruct copy; try reflexivity; destruct deep; reflexivity. Qed.

Lemma get_set_eq o k v : get (set o k v) k = v.
Proof.
  induction o as [|[k' v'] o IH]; simpl.
  - by rewrite String.eqb_refl.
  - destruct (String.eqb k' k) eqn:E; simpl; by rewrite E.
Qed.

Lemma get_set_ne o k k' v : k ≠ k' → get (set o k v) k' = get o k'.
Proof.
  intros Hne. induction o as [|[k0 v0] o IH]; simpl.
  - destruct (String.eqb k k') eqn:E; [|done].
    by apply String.eqb_eq in E.
  - destruct (String.eqb k0 k) eqn:E; simpl.
    + apply String.eqb_eq in E as ->.
      destruct (String.eqb k k') eqn:E'; [|done].
      by apply String.eqb_eq in E'.
    + by rewrite IH.
Qed.

Lemma has_key_set_eq o k v : has_key (set o k v) k = true.
Proof.
  induction o as [|[k' v'] o IH]; simpl.
  - by rewrite String.eqb_refl.
  - destruct (String.eqb k' k) eqn:E; simpl; by rewrite E.
Qed.

Lemma has_key_set o k a v : has_key o a = true → has_key (set o k v) a = true.
Proof.
  induction o as [|[k' v'] o IH]; simpl; [done|].
  destruct (String.eqb k' k) eqn:E; simpl; destruct (String.eqb k' a); auto.
Qed.

Lemma set_set o k v w : set (set o k v) k w = set o k w.
Proof.
  induction o as [|[k' v'] o IH]; simpl.
  - by rewrite String.eqb_refl.
  - destruct (String.eqb k' k) eqn:E; simpl; rewrite E; [done|]. by rewrite IH.
Qed.

Lemma set_set_comm o k a v w :
  k ≠ a → has_key o a = true →
  set (set o k v) a w = set (set o a w) k v.
Proof.
  intros Hne. induction o as [|[k' v'] o IH]; simpl; [done|].
  destruct (String.eqb k' a) eqn:Ea.
  - intros _. apply String.eqb_eq in Ea as ->.
    destruct (String.eqb a k) eqn:Ek.
    + apply String.eqb_eq in Ek. congruence.
    + simpl. by rewrite String.eqb_refl, Ek.
  - intros Hin. destruct (String.eqb k' k) eqn:Ek; simpl; rewrite Ea, ?Ek; [done|].
    by rewrite IH.
Qed.

Lemma get_absent o k : has_key o k = false → get o k = VUndefined.
Proof.
  induction o as [|[k' v'] o IH]; simpl; [done|].
  destruct (String.eqb k' k); [done|auto].
Qed.

(** ** The parameter validator *)

Lemma isMissing_spec (P : Params) (k : string) :
  isMissing P k = true ↔ P !! k = None ∨ P !! k = Some VUndefined.
Proof.
  unfold isMissing. destruct (P !! k) as [[]|]; simpl; intuition congruence.
Qed.

Lemma collect_missing_acc (P : Params) (R acc : list string) :
  fold_left (fun missing k => if isMissing P k then (missing ++ [k])%list else missing) R acc
  = (acc ++ List.filter (isMissing P) R)%list.
Proof.
  revert acc. induction R as [|k R IH]; intros acc; simpl.
  - by rewrite app_nil_r.
  - rewrite IH. destruct (isMissing P k); [|done].
    by rewrite <- app_assoc.
Qed.

Lemma getMissingParams_filter (P : Params) (R : list string) :
  getMissingParams P R = List.filter (isMissing P) R.
Proof. unfold getMissingParams. by rewrite collect_missing_acc. Qed.

Lemma getMissingParams_nil_iff (P : Params) (R : list string) :
  getMissingParams P R = [] ↔ ∀ k, k ∈ R → isMissing P k = false.
Proof.
  rewrite getMissingParams_filter. induction R as [|k R IH]; simpl.
  - split; [|done]. intros _ k Hk. by apply elem_of_nil in Hk.
  - destruct (isMissing P k) eqn:E.
    + split; [done|]. intros H. specialize (H k (list_elem_of_here _ _)). congruence.
    + rewrite IH. split.
      * intros H k' [->|Hk']%elem_of_cons; auto.
      * intros H k' Hk'. apply H. by apply list_elem_of_further.
Qed.

(** C5. [getMissingParams P R] is exactly the subsequence of [R], in [R]'s
    order, of the keys that [P] lacks or binds to [undefined]; [false], [0] and
    the empty string are provided values; and the result is empty if and only
    if [P] provides every key of [R]. *)
Theorem getMissingParams_exact (P : Params) (R : list string) :
  getMissingParams P R = List.filter (isMissing P) R
  ∧ (∀ k, isMissing P k = true ↔ P !! k = None ∨ P !! k = Some VUndefined)
  ∧ sublist (getMissingParams P R) R
  ∧ (∀ k, k ∈ getMissingParams P R ↔ k ∈ R ∧ (P !! k = None ∨ P !! k = Some VUndefined))
  ∧ (∀ k, P !! k = Some (VBool false) ∨ P !! k = Some (VNum 0) ∨ P !! k = Some (VStr "") →
          k ∉ getMissingParams P R)
  ∧ (getMissingParams P R = [] ↔
     ∀ k, k ∈ R → ∃ v, P !! k = Some v ∧ v ≠ VUndefined).
Proof.
  assert (Hmem : ∀ k, k ∈ getMissingParams P R ↔
                      k ∈ R ∧ (P !! k = None ∨ P !! k = Some VUndefined)).
  { intros k. rewrite getMissingParams_filter, list_elem_of_In, filter_In,
      <- list_elem_of_In, isMissing_spec. done. }
  split_and!.
  - apply getMissingParams_filter.
  - apply isMissing_spec.
  - rewrite getMissingParams_filter. clear Hmem.
    induction R as [|k R IH]; simpl; [constructor|].
    destruct (isMissing P k); by constructor.
  - exact Hmem.
  - intros k Hk [_ Habs]%Hmem. intuition congruence.
  - rewrite getMissingParams_nil_iff. split; intros H k Hk; specialize (H k Hk).
    + destruct (P !! k) as [v|] eqn:E.
      * exists v. split; [done|]. intros ->.
        assert (isMissing P k = true) by (apply isMissing_spec; auto). congruence.
      * assert (isMissing P k = true) by (apply isMissing_spec; auto). congruence.
    + destruct H as (v & Hv & Hne).
      destruct (isMissing P k) eqn:E; [|done].
      apply isMissing_spec in E as [E|E]; congruence.
Qed.

(** ** Validation failures *)

Lemma reported_true (m : list string) : m ≠ [] → reported m = true.
Proof. by destruct m. Qed.

Lemma getMissingParams_empty (R : list string) : getMissingParams ∅ R = R.
Proof.
  rewrite getMissingParams_filter. induction R as [|k R IH]; simpl; [done|].
  unfold isMissing at 1. rewrite lookup_empty. by rewrite IH.
Qed.

(** C3. An operation with a required-parameter list, called with a mapping
    that misses a required key and with a callback, ends in one invocation of
    that callback on the missing-parameters result; nothing is forwarded to
    the request helper and the configuration is untouched. *)
Theorem missing_params_reported_to_callback
    (op : validated_operation) (P : Params) (cb : Callback) (_options : obj) :
  getMissingParams P (requiredParams op) ≠ [] →
  invoke op (Some P) (Some cb) _options
  = (Normal (CallbackInvoked cb (getMissingParams P (requiredParams op))), _options).
Proof.
  intros Hmissing. apply reported_true in Hmissing.
  destruct op; unfold_operation; simpl in *; by rewrite Hmissing.
Qed.

Lemma missing_params_reported_to_callback_witness :
  getMissingParams {["tone_input" := VStr "hello"]} (requiredParams OpTone) = ["content_type"]
  ∧ invoke OpTone (Some {["tone_input" := VStr "hello"]}) (Some (Handler 1))
           (sample_instance ToneAnalyzer)
    = (Normal (CallbackInvoked (Handler 1)
                 (getMissingParams {["tone_input" := VStr "hello"]} (requiredParams OpTone))),
       sample_instance ToneAnalyzer).
Proof.
  split; [by vm_compute|].
  apply (missing_params_reported_to_callback OpTone).
  by vm_compute.
Defined.

(** The same holds when [params] itself is left out: every required key is
    missing. *)
Lemma absent_params_reported_to_callback
    (op : validated_operation) (cb : Callback) (_options : obj) :
  invoke op None (Some cb) _options
  = (Normal (CallbackInvoked cb (requiredParams op)), _options).
Proof. destruct op; unfold_operation; simpl; by rewrite getMissingParams_empty. Qed.

(** Without a callback the validation result is not looked at. *)
Lemma no_callback_forwards (op : validated_operation) (P : Params) (_options : obj) :
  ∃ p, invoke op (Some P) None _options
       = (Normal (RequestForwarded p None), defaultOptions p).
Proof.
  destruct op; unfold_operation; cbv zeta;
    destruct (reported _); run_monad; eexists (Parameters _ _); reflexivity.
Qed.

(** C2, as the claim states it, fails: [profile] called without a callback on
    a mapping that lacks [content_type] raises nothing and forwards a request
    descriptor. *)
Lemma profile_without_callback_dispatches :
  getMissingParams {["content" := VStr "hello"]} (requiredParams OpProfile) = ["content_type"]
  ∧ ∃ p, invoke OpProfile (Some {["content" := VStr "hello"]}) None
                (sample_instance PersonalityInsights)
         = (Normal (RequestForwarded p None), defaultOptions p)
         ∧ get (options p) "url" = VStr "/v3/profile"
         ∧ get (options p) "body" = VStr "hello".
Proof.
  split; [by vm_compute|].
  eexists (Parameters _ _). split_and!; [vm_compute; reflexivity|reflexivity..].
Qed.

(** C2, amended. An operation with a required-parameter list, called without
    a callback on a mapping that misses a required key, does not raise the
    missing-parameters error: it assembles the call descriptor from the
    mapping as given, every missing key read as [undefined], and forwards it
    to the request helper, without a callback.  The descriptor is the
    operation's request options over the configuration extended with the
    operation's headers, which is also the configuration the call leaves. *)
Theorem missing_params_without_callback_forwarded
    (op : validated_operation) (P : Params) (_options : obj) :
  getMissingParams P (requiredParams op) ≠ [] →
  invoke op (Some P) None _options
  = (Normal (RequestForwarded
               (Parameters
                  (request_options op P)
                  (extend true _options
                     [("headers", VObj (call_headers (Validated op (Some P) None)))]))
               None),
     extend true _options
       [("headers", VObj (call_headers (Validated op (Some P) None)))])
  ∧ (∀ k, k ∈ getMissingParams P (requiredParams op) → prop P k = VUndefined).
Proof.
  intros _. split.
  - destruct op; unfold_operation; unfold request_options, call_headers, call_params;
      cbv zeta; destruct (reported _); run_monad; reflexivity.
  - intros k Hk.
    rewrite getMissingParams_filter, list_elem_of_In, filter_In in Hk.
    destruct Hk as [_ Hk]. apply isMissing_spec in Hk.
    unfold prop. by destruct Hk as [-> | ->].
Qed.

Lemma missing_params_without_callback_forwarded_witness :
  getMissingParams {["name" := VStr "dogs"]} (requiredParams OpCreateClassifier)
  = ["classname_positive_examples"]
  ∧ request_options OpCreateClassifier {["name" := VStr "dogs"]}
    = [("url", VStr "/v3/classifiers");
       ("method", VStr "POST");
       ("formData",
        VObj [("name", VStr "dogs");
              ("classname_positive_examples",
               VObj [("data", VUndefined);
                     ("contentType", VStr "application/octet-stream")]);
              ("negative_examples",
               VObj [("data", VUndefined);
                     ("contentType", VStr "application/octet-stream")])])]
  ∧ invoke OpCreateClassifier (Some {["name" := VStr "dogs"]}) None
           (sample_instance VisualRecognition)
    = (Normal (RequestForwarded
                 (Parameters
                    (request_options OpCreateClassifier {["name" := VStr "dogs"]})
                    (extend true (sample_instance VisualRecognition)
                       [("headers",
                         VObj (call_headers
                                 (Validated OpCreateClassifier
                                    (Some {["name" := VStr "dogs"]}) None)))]))
                 None),
       extend true (sample_instance VisualRecognition)
         [("headers",
           VObj (call_headers
                   (Validated OpCreateClassifier (Some {["name" := VStr "dogs"]}) None)))])
  ∧ (∀ k, k ∈ getMissingParams {["name" := VStr "dogs"]}
                               (requiredParams OpCreateClassifier) →
          prop {["name" := VStr "dogs"]} k = VUndefined).
Proof.
  split; [by vm_compute|].
  split; [by vm_compute|].
  apply (missing_params_without_callback_forwarded OpCreateClassifier).
  by vm_compute.
Defined.

(** When [params] itself is left out and there is no callback, the first
    property read raises a [TypeError]; no descriptor is built. *)
Lemma absent_params_without_callback_throws
    (op : validated_operation) (_options : obj) :
  invoke op None None _options = (Throw TypeError, _options).
Proof.
  destruct op; unfold_operation; simpl; rewrite getMissingParams_empty; reflexivity.
Qed.

(** ** Merging the per-call headers *)

Lemma get_assign_ne deep t k a v : k ≠ a → get (assign deep t k v) a = get t a.
Proof.
  intros Hne. destruct v; simpl; try destruct deep; by rewrite ?get_set_ne.
Qed.

Lemma has_key_assign deep t k a v :
  has_key t a = true → has_key (assign deep t k v) a = true.
Proof.
  intros Hin. destruct v; simpl; try destruct deep; by rewrite ?has_key_set.
Qed.

Lemma assign_set_comm deep t k a v w :
  k ≠ a → has_key t a = true →
  set (assign deep t k v) a w = assign deep (set t a w) k v.
Proof.
  intros Hne Hin.
  assert (Hget : get (set t a w) k = get t k) by (apply get_set_ne; congruence).
  destruct v; simpl; try destruct deep; rewrite ?Hget;
    first [done | by apply set_set_comm].
Qed.

Lemma extend_headers (_options h : obj) :
  extend true _options [("headers", VObj h)]
  = set _options "headers" (VObj (extend true (plain_or_empty (get _options "headers")) h)).
Proof. by rewrite extend_cons, extend_nil. Qed.

Lemma get_extend_headers (_options h : obj) :
  get (extend true _options [("headers", VObj h)]) "headers"
  = VObj (extend true (plain_or_empty (get _options "headers")) h).
Proof. by rewrite extend_headers, get_set_eq. Qed.

Lemma get_extend_other (_options h : obj) (k : string) :
  k ≠ "headers" → get (extend true _options [("headers", VObj h)]) k = get _options k.
Proof. intros Hne. rewrite extend_headers. apply get_set_ne. congruence. Qed.

(** The [accept] header of a call wins over whatever the target held. *)
Lemma accept_header_set (h0 : obj) (accept : string) (ct cl al : value) :
  get (extend true h0 [("accept", VStr accept); ("content-type", ct);
                       ("content-language", cl); ("accept-language", al)]) "accept"
  = VStr accept.
Proof.
  rewrite !extend_cons, extend_nil.
  rewrite !get_assign_ne by distinct_names.
  simpl. apply get_set_eq.
Qed.

(** Two header literals that differ in [accept] only give merged headers that
    differ in [accept] only. *)
Lemma accept_header_only (h0 : obj) (a1 a2 : string) (ct cl al : value) :
  extend true h0 [("accept", VStr a1); ("content-type", ct);
                  ("content-language", cl); ("accept-language", al)]
  = set (extend true h0 [("accept", VStr a2); ("content-type", ct);
                         ("content-language", cl); ("accept-language", al)])
        "accept" (VStr a1).
Proof.
  rewrite !extend_cons, !extend_nil.
  change (assign true h0 "accept" (VStr a1)) with (set h0 "accept" (VStr a1)).
  change (assign true h0 "accept" (VStr a2)) with (set h0 "accept" (VStr a2)).
  do 3 (rewrite assign_set_comm;
        [| distinct_names
         | repeat apply has_key_assign; apply has_key_set_eq]).
  by rewrite set_set.
Qed.

Lemma strict_eq_str_spec (P : Params) (k s : string) :
  strict_eq_str (prop P k) s = true ↔ P !! k = Some (VStr s).
Proof.
  unfold prop. destruct (P !! k) as [[]|]; simpl; try (intuition congruence).
  rewrite String.eqb_eq. intuition congruence.
Qed.

(** ** Content submission: [profile], [profile_csv] and [tone] *)

(** With every required parameter provided, the operations build their
    descriptor whether or not a callback is given. *)
Lemma profile_forwards (P : Params) (callback : option Callback) (_options : obj) :
  getMissingParams P ["content"; "content_type"] = [] →
  ∃ p, PersonalityInsightsV3.profile (Some P) callback _options
       = (Normal (RequestForwarded p callback), defaultOptions p)
     ∧ options p
       = [("url", VStr "/v3/profile"); ("method", VStr "POST");
          ("json", VBool (strict_eq_str (prop P "content_type") "application/json"));
          ("body", prop P "content");
          ("qs", VObj [("raw_scores", prop P "raw_scores");
                       ("csv_headers", prop P "csv_headers");
                       ("consumption_preferences", prop P "consumption_preferences")])]
     ∧ defaultOptions p
       = extend true _options
           [("headers", VObj [("accept", VStr "application/json");
                              ("content-type", prop P "content_type");
                              ("content-language", prop P "content_language");
                              ("accept-language", prop P "accept_language")])].
Proof.
  intros Hvalid. unfold_operation. simpl. rewrite Hvalid. simpl.
  destruct callback; run_monad; eexists (Parameters _ _); split_and!; reflexivity.
Qed.

Lemma profile_csv_forwards (P : Params) (callback : option Callback) (_options : obj) :
  getMissingParams P ["content"; "content_type"] = [] →
  ∃ p, PersonalityInsightsV3.profile_csv (Some P) callback _options
       = (Normal (RequestForwarded p callback), defaultOptions p)
     ∧ options p
       = [("url", VStr "/v3/profile"); ("method", VStr "POST");
          ("json", VBool (strict_eq_str (prop P "content_type") "application/json"));
          ("body", prop P "content");
          ("qs", VObj [("raw_scores", prop P "raw_scores");
                       ("csv_headers", prop P "csv_headers");
                       ("consumption_preferences", prop P "consumption_preferences")])]
     ∧ defaultOptions p
       = extend true _options
           [("headers", VObj [("accept", VStr "text/csv");
                              ("content-type", prop P "content_type");
                              ("content-language", prop P "content_language");
                              ("accept-language", prop P "accept_language")])].
Proof.
  intros Hvalid. unfold_operation. simpl. rewrite Hvalid. simpl.
  destruct callback; run_monad; eexists (Parameters _ _); split_and!; reflexivity.
Qed.

Lemma tone_forwards (P : Params) (callback : option Callback) (_options : obj) :
  getMissingParams P ["tone_input"; "content_type"] = [] →
  ∃ p, ToneAnalyzerV3.tone (Some P) callback _options
       = (Normal (RequestForwarded p callback), defaultOptions p)
     ∧ options p
       = [("url", VStr "/v3/tone"); ("method", VStr "POST");
          ("json", VBool (strict_eq_str (prop P "content_type") "application/json"));
          ("body", prop P "tone_input");
          ("qs", VObj [("sentences", prop P "sentences"); ("tones", prop P "tones")])]
     ∧ defaultOptions p
       = extend true _options
           [("headers", VObj [("accept", VStr "application/json");
                              ("content-type", prop P "content_type");
                              ("content-language", prop P "content_language");
                              ("accept-language", prop P "accept_language")])].
Proof.
  intros Hvalid. unfold_operation. simpl. rewrite Hvalid. simpl.
  destruct callback; run_monad; eexists (Parameters _ _); split_and!; reflexivity.
Qed.

Lemma json_flag_spec (P : Params) :
  (strict_eq_str (prop P "content_type") "application/json" = true
   ↔ P !! "content_type" = Some (VStr "application/json"))
  ∧ (P !! "content_type" = Some (VStr "text/plain")
     ∨ P !! "content_type" = Some (VStr "text/html") →
     strict_eq_str (prop P "content_type") "application/json" = false).
Proof.
  split; [apply strict_eq_str_spec|].
  unfold prop. by intros [-> | ->].
Qed.

(** C7. [profile] and [tone], called with their required parameters, build a
    descriptor whose [json] flag is [true] exactly when [content_type] is the
    string ['application/json']; for ['text/plain'] and ['text/html'] it is
    [false]; and the body is the caller's content as given. *)
Theorem json_flag_follows_content_type
    (P : Params) (callback : option Callback) (_options : obj) :
  (getMissingParams P (requiredParams OpProfile) = [] →
   ∃ p b, PersonalityInsightsV3.profile (Some P) callback _options
          = (Normal (RequestForwarded p callback), defaultOptions p)
        ∧ get (options p) "json" = VBool b
        ∧ (b = true ↔ P !! "content_type" = Some (VStr "application/json"))
        ∧ (P !! "content_type" = Some (VStr "text/plain")
           ∨ P !! "content_type" = Some (VStr "text/html") → b = false)
        ∧ get (options p) "body" = prop P "content")
  ∧ (getMissingParams P (requiredParams OpTone) = [] →
     ∃ p b, ToneAnalyzerV3.tone (Some P) callback _options
            = (Normal (RequestForwarded p callback), defaultOptions p)
          ∧ get (options p) "json" = VBool b
          ∧ (b = true ↔ P !! "content_type" = Some (VStr "application/json"))
          ∧ (P !! "content_type" = Some (VStr "text/plain")
             ∨ P !! "content_type" = Some (VStr "text/html") → b = false)
          ∧ get (options p) "body" = prop P "tone_input").
Proof.
  destruct (json_flag_spec P) as [Hjson Htext].
  split; intros Hvalid.
  - destruct (profile_forwards P callback _options Hvalid) as (p & Hrun & Hopts & _).
    exists p, (strict_eq_str (prop P "content_type") "application/json").
    rewrite Hopts. by split_and!.
  - destruct (tone_forwards P callback _options Hvalid) as (p & Hrun & Hopts & _).
    exists p, (strict_eq_str (prop P "content_type") "application/json").
    rewrite Hopts. by split_and!.
Qed.

Lemma json_flag_follows_content_type_witness :
  getMissingParams
    (<["content" := VStr "<p>hello</p>"]> {["content_type" := VStr "text/html"]})
    (requiredParams OpProfile) = []
  ∧ ∃ p b, PersonalityInsightsV3.profile
             (Some (<["content" := VStr "<p>hello</p>"]> {["content_type" := VStr "text/html"]}))
             (Some (Handler 7)) (sample_instance PersonalityInsights)
           = (Normal (RequestForwarded p (Some (Handler 7))), defaultOptions p)
         ∧ get (options p) "json" = VBool b
         ∧ (b = true ↔
            (<["content" := VStr "<p>hello</p>"]> {["content_type" := VStr "text/html"]} : Params)
              !! "content_type" = Some (VStr "application/json"))
         ∧ ((<["content" := VStr "<p>hello</p>"]> {["content_type" := VStr "text/html"]} : Params)
              !! "content_type" = Some (VStr "text/plain")
            ∨ (<["content" := VStr "<p>hello</p>"]> {["content_type" := VStr "text/html"]} : Params)
                !! "content_type" = Some (VStr "text/html") → b = false)
         ∧ get (options p) "body"
           = prop (<["content" := VStr "<p>hello</p>"]> {["content_type" := VStr "text/html"]})
                  "content".
Proof.
  split; [by vm_compute|].
  apply (proj1 (json_flag_follows_content_type _ (Some (Handler 7)) _)).
  by vm_compute.
Defined.

(** C8. [profile_csv], called with its required parameters, asks for
    [accept: text/csv] whatever the [content_type] of the body, and whatever
    headers the instance held before. *)
Theorem profile_csv_accepts_csv
    (P : Params) (callback : option Callback) (_options : obj) :
  getMissingParams P (requiredParams OpProfileCsv) = [] →
  ∃ p headers,
    PersonalityInsightsV3.profile_csv (Some P) callback _options
    = (Normal (RequestForwarded p callback), defaultOptions p)
    ∧ get (options p) "headers" = VUndefined
    ∧ get (defaultOptions p) "headers" = VObj headers
    ∧ get headers "accept" = VStr "text/csv".
Proof.
  intros Hvalid.
  destruct (profile_csv_forwards P callback _options Hvalid) as (p & Hrun & Hopts & Hdef).
  exists p. eexists. split_and!; [done| |by rewrite Hdef, get_extend_headers|].
  - by rewrite Hopts.
  - apply accept_header_set.
Qed.

Lemma profile_csv_accepts_csv_witness :
  getMissingParams
    (<["content" := VStr "hello"]> {["content_type" := VStr "application/json"]})
    (requiredParams OpProfileCsv) = []
  ∧ ∃ p headers,
      PersonalityInsightsV3.profile_csv
        (Some (<["content" := VStr "hello"]> {["content_type" := VStr "application/json"]}))
        None [("headers", VObj [("accept", VStr "application/json")])]
      = (Normal (RequestForwarded p None), defaultOptions p)
      ∧ get (options p) "headers" = VUndefined
      ∧ get (defaultOptions p) "headers" = VObj headers
      ∧ get headers "accept" = VStr "text/csv".
Proof.
  split; [by vm_compute|].
  apply profile_csv_accepts_csv.
  by vm_compute.
Defined.

(** C10. On the same instance state and parameters, [profile_csv] builds the
    descriptor [profile] builds, but for the [accept] header: the request
    options are equal, and the default options of [profile] are those of
    [profile_csv] with [headers.accept] set to ['application/json'], where
    [profile_csv] has ['text/csv']. *)
Theorem profile_csv_differs_in_accept_only
    (P : Params) (callback : option Callback) (_options : obj) :
  getMissingParams P ["content"; "content_type"] = [] →
  ∃ p p_csv headers headers_csv,
    PersonalityInsightsV3.profile (Some P) callback _options
    = (Normal (RequestForwarded p callback), defaultOptions p)
    ∧ PersonalityInsightsV3.profile_csv (Some P) callback _options
      = (Normal (RequestForwarded p_csv callback), defaultOptions p_csv)
    ∧ options p = options p_csv
    ∧ get (options p) "url" = VStr "/v3/profile"
    ∧ get (options p) "method" = VStr "POST"
    ∧ get (defaultOptions p) "headers" = VObj headers
    ∧ get (defaultOptions p_csv) "headers" = VObj headers_csv
    ∧ defaultOptions p = set (defaultOptions p_csv) "headers" (VObj headers)
    ∧ headers = set headers_csv "accept" (VStr "application/json")
    ∧ get headers "accept" = VStr "application/json"
    ∧ get headers_csv "accept" = VStr "text/csv"
    ∧ (∀ k, k ≠ "accept" → get headers k = get headers_csv k)
    ∧ (∀ k, k ≠ "headers" → get (defaultOptions p) k = get (defaultOptions p_csv) k).
Proof.
  intros Hvalid.
  destruct (profile_forwards P callback _options Hvalid) as (p & Hrun & Hopts & Hdef).
  destruct (profile_csv_forwards P callback _options Hvalid)
    as (p_csv & Hrun_csv & Hopts_csv & Hdef_csv).
  exists p, p_csv. do 2 eexists.
  split_and!; [done|done|by rewrite Hopts, Hopts_csv|by rewrite Hopts|by rewrite Hopts
              |by rewrite Hdef, get_extend_headers
              |by rewrite Hdef_csv, get_extend_headers|..].
  - by rewrite Hdef, Hdef_csv, !extend_headers, set_set.
  - apply accept_header_only.
  - apply accept_header_set.
  - apply accept_header_set.
  - intros k Hk.
    rewrite (accept_header_only _ "application/json" "text/csv").
    apply get_set_ne. congruence.
  - intros k Hk. by rewrite Hdef, Hdef_csv, !get_extend_other.
Qed.

Lemma profile_csv_differs_in_accept_only_witness :
  getMissingParams
    (<["content" := VStr "hello"]> {["content_type" := VStr "text/plain"]})
    ["content"; "content_type"] = []
  ∧ ∃ p p_csv headers headers_csv,
      PersonalityInsightsV3.profile
        (Some (<["content" := VStr "hello"]> {["content_type" := VStr "text/plain"]}))
        None [("qs", VObj [("version", VStr "2017-10-13")])]
      = (Normal (RequestForwarded p None), defaultOptions p)
      ∧ PersonalityInsightsV3.profile_csv
          (Some (<["content" := VStr "hello"]> {["content_type" := VStr "text/plain"]}))
          None [("qs", VObj [("version", VStr "2017-10-13")])]
        = (Normal (RequestForwarded p_csv None), defaultOptions p_csv)
      ∧ options p = options p_csv
      ∧ get (options p) "url" = VStr "/v3/profile"
      ∧ get (options p) "method" = VStr "POST"
      ∧ get (defaultOptions p) "headers" = VObj headers
      ∧ get (defaultOptions p_csv) "headers" = VObj headers_csv
      ∧ defaultOptions p = set (defaultOptions p_csv) "headers" (VObj headers)
      ∧ headers = set headers_csv "accept" (VStr "application/json")
      ∧ get headers "accept" = VStr "application/json"
      ∧ get headers_csv "accept" = VStr "text/csv"
      ∧ (∀ k, k ≠ "accept" → get headers k = get headers_csv k)
      ∧ (∀ k, k ≠ "headers" → get (defaultOptions p) k = get (defaultOptions p_csv) k).
Proof.
  split; [by vm_compute|].
  apply profile_csv_differs_in_accept_only.
  by vm_compute.
Defined.

(** ** Construction *)

Lemma assign_shallow t n c :
  assign false t n c = if is_undefined c then t else set t n c.
Proof. by destruct c. Qed.

(** A shallow [extend] reads, for each name, the source's value unless it is
    [undefined]. *)
Lemma get_extend_shallow (t src : obj) (k : string) :
  unique_keys src = true →
  get (extend false t src) k
  = if is_undefined (get src k) then get t k else get src k.
Proof.
  revert t. induction src as [|[n c] rest IH]; intros t Huniq; [done|].
  simpl in Huniq. apply andb_true_iff in Huniq as [Hfresh Huniq].
  apply negb_true_iff in Hfresh.
  rewrite extend_cons, IH by done. simpl.
  destruct (String.eqb n k) eqn:E.
  - apply String.eqb_eq in E as ->.
    rewrite (get_absent rest k) by done. simpl.
    rewrite assign_shallow. destruct (is_undefined c); [done|apply get_set_eq].
  - apply String.eqb_neq in E. by rewrite get_assign_ne.
Qed.

Lemma BaseService_version_date (URL : string) (options : obj) :
  unique_keys options = true →
  get (BaseService URL options) "version_date" = get options "version_date".
Proof.
  intros Huniq. unfold BaseService. rewrite get_extend_shallow by done.
  by destruct (get options "version_date").
Qed.

Lemma BaseService_qs (URL : string) (options : obj) :
  unique_keys options = true →
  get options "qs" = VUndefined →
  get (BaseService URL options) "qs" = VObj [].
Proof.
  intros Huniq Hqs. unfold BaseService. rewrite get_extend_shallow by done.
  by rewrite Hqs.
Qed.

Lemma construct_unfold (f : facade) (options : obj) :
  ∃ URL,
    construct f options
    = if is_undefined (get (BaseService URL options) "version_date")
      then Throw (version_date_error f)
      else set_qs_version (BaseService URL options) (get options "version_date").
Proof. destruct f; eexists; reflexivity. Qed.

(** C6. Constructing a facade from options without [version_date] throws the
    argument error, before anything else happens; with [version_date]
    present that error is not thrown, and construction yields an instance
    whose query-string defaults carry the version date. *)
Theorem constructor_requires_version_date (f : facade) (options : obj) :
  unique_keys options = true →
  (get options "version_date" = VUndefined →
   construct f options = Throw (version_date_error f))
  ∧ (get options "version_date" ≠ VUndefined →
     (∀ message, construct f options ≠ Throw (Error message))
     ∧ (get options "qs" = VUndefined →
        ∃ _options qs,
          construct f options = Normal _options
          ∧ get _options "version_date" = get options "version_date"
          ∧ get _options "qs" = VObj qs
          ∧ get qs "version" = get options "version_date")).
Proof.
  intros Huniq.
  destruct (construct_unfold f options) as [URL ->].
  rewrite BaseService_version_date by done.
  split.
  - by intros ->.
  - intros Hdate.
    assert (is_undefined (get options "version_date") = false) as ->
      by by destruct (get options "version_date").
    split.
    + intros message. unfold set_qs_version.
      by destruct (get (BaseService URL options) "qs").
    + intros Hqs. unfold set_qs_version. rewrite BaseService_qs by done.
      do 2 eexists. split_and!; [done| | |].
      * rewrite get_set_ne by distinct_names. by apply BaseService_version_date.
      * apply get_set_eq.
      * done.
Qed.

Lemma constructor_requires_version_date_witness :
  unique_keys [("username", VStr "apikey"); ("password", VStr "secret")] = true
  ∧ unique_keys [("version_date", VStr "2016-05-20"); ("api_key", VStr "secret")] = true
  ∧ construct ToneAnalyzer [("username", VStr "apikey"); ("password", VStr "secret")]
    = Throw (version_date_error ToneAnalyzer)
  ∧ ∃ _options qs,
      construct VisualRecognition
        [("version_date", VStr "2016-05-20"); ("api_key", VStr "secret")]
      = Normal _options
      ∧ get _options "version_date"
        = get [("version_date", VStr "2016-05-20"); ("api_key", VStr "secret")] "version_date"
      ∧ get _options "qs" = VObj qs
      ∧ get qs "version"
        = get [("version_date", VStr "2016-05-20"); ("api_key", VStr "secret")] "version_date".
Proof.
  split_and!; [reflexivity|reflexivity| |].
  - apply (constructor_requires_version_date ToneAnalyzer); reflexivity.
  - apply (constructor_requires_version_date VisualRecognition);
      [reflexivity|discriminate|reflexivity].
Defined.

Example construct_with_version_date :
  construct VisualRecognition [("version_date", VStr "2016-05-20"); ("api_key", VStr "secret")]
  = Normal [("qs", VObj [("version", VStr "2016-05-20")]);
            ("url", VStr "https://gateway.watsonplatform.net/visual-recognition/api");
            ("version_date", VStr "2016-05-20");
            ("api_key", VStr "secret")].
Proof. reflexivity. Qed.

Example construct_without_version_date :
  construct PersonalityInsights [("username", VStr "apikey"); ("password", VStr "secret")]
  = Throw (Error "Argument error: version_date was not specified").
Proof. reflexivity. Qed.

(** ** Optional parameters *)

(** C4, as the claim states it, fails: the query mapping [profile] builds
    without [raw_scores] has the key [raw_scores], and the form data
    [classify] builds without [images_file] has the entry [images_file]. *)
Lemma omitted_optional_keys_are_present :
  (prop (<["content" := VStr "hello"]> {["content_type" := VStr "text/plain"]}) "raw_scores"
   = VUndefined
   ∧ ∃ p qs,
       PersonalityInsightsV3.profile
         (Some (<["content" := VStr "hello"]> {["content_type" := VStr "text/plain"]}))
         None (sample_instance PersonalityInsights)
       = (Normal (RequestForwarded p None), defaultOptions p)
       ∧ get (options p) "qs" = VObj qs
       ∧ has_key qs "raw_scores" = true)
  ∧ (prop ∅ "images_file" = VUndefined
     ∧ ∃ p formData,
         VisualRecognitionV3.classify (VisualRecognitionV3.ArgParams ∅) None
           (sample_instance VisualRecognition)
         = (Normal (RequestForwarded p None), defaultOptions p)
         ∧ get (options p) "formData" = VObj formData
         ∧ has_key formData "images_file" = true).
Proof.
  split; (split; [by vm_compute|]);
    eexists (Parameters _ _); eexists;
    (split_and!; [vm_compute; reflexivity|reflexivity|reflexivity]).
Qed.

(** C4, amended. When an operation builds its descriptor and an optional
    parameter is absent, the query mapping or form data holds that
    parameter's key with no defined value: a query parameter or a plain form
    field is bound to [undefined] (never to [null] or the empty string), and
    a file part is the attachment descriptor of [undefined] data.  Leaving
    such entries out is the request helper's part. *)
Theorem optional_parameters_left_undefined
    (c : call) (_options _options' : obj) (p : parameters) (cb : option Callback) :
  perform c _options = (Normal (RequestForwarded p cb), _options') →
  (∀ k, k ∈ optional_query_keys c → prop (call_params c) k = VUndefined →
        ∃ qs, get (options p) "qs" = VObj qs
              ∧ has_key qs k = true ∧ get qs k = VUndefined)
  ∧ (∀ k, k ∈ optional_form_keys c → prop (call_params c) k = VUndefined →
          ∃ formData, get (options p) "formData" = VObj formData
                      ∧ has_key formData k = true ∧ get formData k = VUndefined)
  ∧ (∀ k, k ∈ optional_file_keys c → prop (call_params c) k = VUndefined →
          ∃ formData contentType,
            get (options p) "formData" = VObj formData
            ∧ has_key formData k = true
            ∧ get formData k = buildRequestFileObject VUndefined contentType).
Proof.
  intros Hrun.
  destruct c as [op params callback|params callback|params callback|params callback];
    [destruct op; destruct params as [P|]|..];
    unfold call_params;
    forwarded_descriptor Hrun;
    (split_and!; intros k Hk Habsent; simpl in Hk, Habsent; each_key Hk;
     repeat eexists; simpl; try rewrite Habsent; reflexivity).
Qed.

Lemma optional_parameters_left_undefined_witness :
  ∃ p _options',
    perform (Validated OpTone
               (Some (<["tone_input" := VStr "hello"]> {["content_type" := VStr "text/plain"]}))
               None) (sample_instance ToneAnalyzer)
    = (Normal (RequestForwarded p None), _options')
    ∧ prop (<["tone_input" := VStr "hello"]> {["content_type" := VStr "text/plain"]}) "sentences"
      = VUndefined
    ∧ ∃ qs, get (options p) "qs" = VObj qs
            ∧ has_key qs "sentences" = true ∧ get qs "sentences" = VUndefined.
Proof.
  eexists (Parameters _ _), _.
  split; [vm_compute; reflexivity|].
  split; [by vm_compute|].
  refine (proj1 (optional_parameters_left_undefined
                   (Validated OpTone
                      (Some (<["tone_input" := VStr "hello"]>
                               {["content_type" := VStr "text/plain"]}))
                      None) (sample_instance ToneAnalyzer) _ _ None _) "sentences" _ _).
  - vm_compute; reflexivity.
  - apply list_elem_of_here.
  - by vm_compute.
Defined.

(** ** Configuration across calls *)

(** C1 fails on the code: [extend(true, this._options, ...)] merges the
    headers of each call into the instance's own configuration.  After
    [profile] with [content_language: 'es'], the configuration holds the
    headers of that call, and a second [profile] that leaves
    [content_language] out still sends [content-language: es]. *)
Theorem headers_leak_into_configuration :
  ∃ _options p1 p2 _options' headers,
    PersonalityInsightsV3.constructor sample_options = Normal _options
    ∧ get _options "headers" = VUndefined
    ∧ run [Validated OpProfile
             (Some (<["content" := VStr "hola"]>
                      (<["content_type" := VStr "text/plain"]>
                         {["content_language" := VStr "es"]})))
             None;
           Validated OpProfile
             (Some (<["content" := VStr "hello"]> {["content_type" := VStr "text/html"]}))
             None] _options
      = ([Normal (RequestForwarded p1 None); Normal (RequestForwarded p2 None)], _options')
    ∧ get _options' "headers"
      = VObj [("accept", VStr "application/json"); ("content-type", VStr "text/html");
              ("content-language", VStr "es")]
    ∧ prop (<["content" := VStr "hello"]> {["content_type" := VStr "text/html"]})
           "content_language" = VUndefined
    ∧ get (defaultOptions p2) "headers" = VObj headers
    ∧ get headers "content-language" = VStr "es".
Proof.
  eexists _, (Parameters _ _), (Parameters _ _), _, _.
  split_and!; [reflexivity|reflexivity|vm_compute; reflexivity|reflexivity
              |by vm_compute|reflexivity|reflexivity].
Qed.

(** What a call can change is the [headers] property, nothing else: base
    URL, credentials and query-string defaults stay as constructed. *)
Lemma operations_change_headers_only
    (c : call) (_options _options' : obj) (r : completion effect) (k : string) :
  perform c _options = (r, _options') →
  k ≠ "headers" →
  get _options' k = get _options k.
Proof.
  intros Hrun Hk.
  destruct c as [op params callback|params callback|params callback|params callback];
    [destruct op; destruct params as [P|]|..];
    forwarded_descriptor Hrun; first [done | by apply get_extend_other].
Qed.

(** The callback path leaves the configuration as it was. *)
Lemma validation_failure_keeps_configuration
    (op : validated_operation) (params : option Params) (cb : Callback)
    (missing : list string) (_options _options' : obj) :
  invoke op params (Some cb) _options = (Normal (CallbackInvoked cb missing), _options') →
  _options' = _options.
Proof.
  intros Hrun. destruct op; destruct params as [P|];
    unfold invoke,
      PersonalityInsightsV3.profile, PersonalityInsightsV3Generated.profile,
      PersonalityInsightsV3.profile_csv,
      ToneAnalyzerV3.tone, ToneAnalyzerV3.toneChat,
      VisualRecognitionV3.createClassifier, VisualRecognitionV3.deleteClassifier,
      VisualRecognitionV3.getClassifier, VisualRecognitionV3.updateClassifier in Hrun;
    cbv zeta in Hrun; destruct (reported _);
    cbv beta iota zeta delta [bind ret throw deref extend_this_options] in Hrun;
    congruence.
Qed.

(** ** File parts *)

(** C9 fails on the code for [classify] and [detectFaces]: the content type
    declared for [images_file] is the 26-character text
    ["application/octet-stream"] with its double quotes, not the string
    [application/octet-stream] that [createClassifier] and [updateClassifier]
    declare. *)
Theorem images_file_content_type_is_quoted :
  ∃ p formData p_faces formData_faces,
    VisualRecognitionV3.classify
      (VisualRecognitionV3.ArgParams {["images_file" := VRef 1]}) None
      (sample_instance VisualRecognition)
    = (Normal (RequestForwarded p None), defaultOptions p)
    ∧ get (options p) "formData" = VObj formData
    ∧ get formData "images_file"
      = VObj [("data", VRef 1);
              ("contentType", VStr VisualRecognitionV3.quoted_octet_stream)]
    ∧ VisualRecognitionV3.detectFaces
        (VisualRecognitionV3.ArgParams {["images_file" := VRef 1]}) None
        (sample_instance VisualRecognition)
      = (Normal (RequestForwarded p_faces None), defaultOptions p_faces)
    ∧ get (options p_faces) "formData" = VObj formData_faces
    ∧ get formData_faces "images_file"
      = VObj [("data", VRef 1);
              ("contentType", VStr VisualRecognitionV3.quoted_octet_stream)]
    ∧ String.length VisualRecognitionV3.quoted_octet_stream = 26
    ∧ String.length "application/octet-stream" = 24
    ∧ String.get 0 VisualRecognitionV3.quoted_octet_stream = Some (ascii_of_nat 34)
    ∧ VisualRecognitionV3.quoted_octet_stream ≠ "application/octet-stream".
Proof.
  eexists (Parameters _ _), _, (Parameters _ _), _.
  split_and!; [vm_compute; reflexivity|reflexivity|by vm_compute
              |vm_compute; reflexivity|reflexivity|by vm_compute
              |reflexivity|reflexivity|reflexivity|discriminate].
Qed.

(** The classifier operations declare the plain content type. *)
Lemma example_files_content_type (P : Params) (_options _options' : obj)
    (p : parameters) (cb : option Callback) (op : validated_operation) :
  op = OpCreateClassifier ∨ op = OpUpdateClassifier →
  invoke op (Some P) None _options = (Normal (RequestForwarded p cb), _options') →
  ∃ formData,
    get (options p) "formData" = VObj formData
    ∧ get formData "classname_positive_examples"
      = buildRequestFileObject (prop P "classname_positive_examples")
                               "application/octet-stream"
    ∧ get formData "negative_examples"
      = buildRequestFileObject (prop P "negative_examples") "application/octet-stream".
Proof.
  intros [-> | ->] Hrun; forwarded_descriptor Hrun; eexists; split_and!; reflexivity.
Qed.

(** * Further properties of the facades *)

(** ** Outcomes of the validated operations *)

Lemma reported_false_nil (m : list string) : reported m = false → m = [].
Proof. by destruct m. Qed.

Lemma invoke_reports (op : validated_operation) (P : Params) (cb : Callback)
    (_options : obj) :
  reported (getMissingParams P (requiredParams op)) = true →
  invoke op (Some P) (Some cb) _options
  = (Normal (CallbackInvoked cb (getMissingParams P (requiredParams op))), _options).
Proof.
  intros Hrep. destruct op; unfold_operation; simpl in *; by rewrite Hrep.
Qed.

Lemma invoke_forwards (op : validated_operation) (P : Params)
    (callback : option Callback) (_options : obj) :
  getMissingParams P (requiredParams op) = [] →
  ∃ p, invoke op (Some P) callback _options
       = (Normal (RequestForwarded p callback), defaultOptions p).
Proof.
  intros Hvalid. destruct op; unfold_operation; simpl in *; rewrite Hvalid; simpl;
    destruct callback; run_monad; eexists (Parameters _ _); reflexivity.
Qed.

(** X1. An operation with a required-parameter list raises only when it is
    called with neither [params] nor a callback; the error is then the
    [TypeError] of the first property read and the configuration is as it
    was.  With a parameter object it never raises, whatever is missing. *)
Theorem raises_only_without_params_and_callback
    (op : validated_operation) (params : option Params) (callback : option Callback)
    (_options : obj) :
  ((∃ e, fst (invoke op params callback _options) = Throw e)
   ↔ params = None ∧ callback = None)
  ∧ (∀ e _options', invoke op params callback _options = (Throw e, _options') →
                    e = TypeError ∧ _options' = _options).
Proof.
  destruct params as [P|], callback as [cb|].
  - destruct (reported (getMissingParams P (requiredParams op))) eqn:Hrep.
    + rewrite (invoke_reports op P cb _options Hrep).
      split; [split; [intros [e He]; discriminate|intros [? _]; discriminate]|].
      intros e o' H. discriminate.
    + apply reported_false_nil in Hrep.
      destruct (invoke_forwards op P (Some cb) _options Hrep) as [p ->].
      split; [split; [intros [e He]; discriminate|intros [? _]; discriminate]|].
      intros e o' H. discriminate.
  - destruct (no_callback_forwards op P _options) as [p ->].
    split; [split; [intros [e He]; discriminate|intros [? _]; discriminate]|].
    intros e o' H. discriminate.
  - rewrite absent_params_reported_to_callback.
    split; [split; [intros [e He]; discriminate|intros [_ ?]; discriminate]|].
    intros e o' H. discriminate.
  - rewrite absent_params_without_callback_throws.
    split; [split; [done|by eexists]|].
    intros e o' H. by simplify_eq.
Qed.

(** X2. Called with a parameter object and a callback, an operation with a
    required-parameter list forwards a request exactly when no required
    parameter is missing, and then hands that same callback to the request
    helper; when validation passes the same holds without a callback. *)
Theorem forwards_exactly_when_valid
    (op : validated_operation) (P : Params) (cb : Callback) (_options : obj) :
  ((∃ p c _options',
      invoke op (Some P) (Some cb) _options = (Normal (RequestForwarded p c), _options'))
   ↔ getMissingParams P (requiredParams op) = [])
  ∧ (getMissingParams P (requiredParams op) = [] →
     ∀ callback, ∃ p, invoke op (Some P) callback _options
                      = (Normal (RequestForwarded p callback), defaultOptions p)).
Proof.
  split; [split|].
  - intros (p & c & o' & Hrun).
    destruct (reported (getMissingParams P (requiredParams op))) eqn:Hrep;
      [|by apply reported_false_nil].
    rewrite (invoke_reports op P cb _options Hrep) in Hrun. discriminate.
  - intros Hvalid.
    destruct (invoke_forwards op P (Some cb) _options Hvalid) as [p Hp]. eauto.
  - intros Hvalid callback. by apply invoke_forwards.
Qed.

Lemma forwards_exactly_when_valid_witness :
  getMissingParams {["classifier_id" := VStr "dogs_1941945966"]}
                   (requiredParams OpGetClassifier) = []
  ∧ ∀ callback, ∃ p,
      invoke OpGetClassifier (Some {["classifier_id" := VStr "dogs_1941945966"]}) callback
             (sample_instance VisualRecognition)
      = (Normal (RequestForwarded p callback), defaultOptions p).
Proof.
  split; [by vm_compute|].
  apply (proj2 (forwards_exactly_when_valid OpGetClassifier _ (Handler 1) _)).
  by vm_compute.
Defined.

(** ** Headers across calls *)

(** A deep [extend] reads, for each name, the source's value merged over the
    target's. *)
Lemma get_extend_deep (t src : obj) (k : string) :
  unique_keys src = true →
  get (extend true t src) k
  = match get src k with
    | VUndefined => get t k
    | VObj c => VObj (extend true (plain_or_empty (get t k)) c)
    | VArr items => merge_into true (VArr (array_or_empty (get t k))) (VArr items)
    | v => v
    end.
Proof.
  revert t. induction src as [|[n c] rest IH]; intros t Huniq; [done|].
  simpl in Huniq. apply andb_true_iff in Huniq as [Hfresh Huniq].
  apply negb_true_iff in Hfresh.
  rewrite extend_cons, IH by done. simpl.
  destruct (String.eqb n k) eqn:E.
  - apply String.eqb_eq in E as ->.
    rewrite (get_absent rest k) by done.
    destruct c; simpl; by rewrite ?get_set_eq.
  - apply String.eqb_neq in E. by rewrite get_assign_ne.
Qed.

Lemma call_headers_unique (c : call) : unique_keys (call_headers c) = true.
Proof. destruct c as [[]| | |]; reflexivity. Qed.

(** A call that forwards a request leaves, and forwards, the configuration
    extended with its headers. *)
Lemma forwarded_configuration
    (c : call) (_options _options' : obj) (p : parameters) (cb : option Callback) :
  perform c _options = (Normal (RequestForwarded p cb), _options') →
  defaultOptions p = _options'
  ∧ _options' = extend true _options [("headers", VObj (call_headers c))].
Proof.
  intros Hrun.
  destruct c as [op params callback|params callback|params callback|params callback];
    [destruct op; destruct params as [P|]|..];
    unfold call_headers, call_params;
    forwarded_descriptor Hrun; done.
Qed.

Lemma forwarded_headers
    (c : call) (_options _options' : obj) (p : parameters) (cb : option Callback) :
  perform c _options = (Normal (RequestForwarded p cb), _options') →
  get (defaultOptions p) "headers"
  = VObj (extend true (plain_or_empty (get _options "headers")) (call_headers c)).
Proof.
  intros Hrun. destruct (forwarded_configuration _ _ _ _ _ Hrun) as [-> ->].
  apply get_extend_headers.
Qed.

Lemma run_cons (c : call) (rest : list call) (_options : obj) :
  run (c :: rest) _options
  = (fst (perform c _options) :: fst (run rest (snd (perform c _options))),
     snd (run rest (snd (perform c _options)))).
Proof.
  simpl. destruct (perform c _options) as [r o1]. simpl.
  by destruct (run rest o1).
Qed.

(** X3. Whatever calls are made on an instance, in any number and order, every
    property of its configuration other than [headers] (base URL, credentials,
    version date, query-string defaults) is what it was before them; and each
    call has one outcome. *)
Theorem configuration_outside_headers_is_kept
    (calls : list call) (_options _options' : obj) (results : list (completion effect)) :
  run calls _options = (results, _options') →
  (∀ k, k ≠ "headers" → get _options' k = get _options k)
  ∧ length results = length calls.
Proof.
  revert _options _options' results.
  induction calls as [|c rest IH]; intros o o' rs Hrun.
  - simpl in Hrun. by simplify_eq.
  - rewrite run_cons in Hrun. simplify_eq.
    destruct (perform c o) as [r o1] eqn:Hc. simpl.
    destruct (run rest o1) as [rs o2] eqn:Hrest. simpl.
    destruct (IH _ _ _ Hrest) as [Hkeep Hlen]. split.
    + intros k Hk. rewrite Hkeep by done.
      by apply (operations_change_headers_only c o o1 r).
    + simpl. by rewrite Hlen.
Qed.

Lemma configuration_outside_headers_is_kept_witness :
  ∃ results _options',
    run [Classify (VisualRecognitionV3.ArgParams {["accept_language" := VStr "es"]}) None;
         Validated OpDeleteClassifier None (Some (Handler 2));
         ListClassifiers (VisualRecognitionV3.ArgFunction (Handler 3)) None]
        (sample_instance VisualRecognition)
    = (results, _options')
    ∧ (∀ k, k ≠ "headers" →
            get _options' k = get (sample_instance VisualRecognition) k)
    ∧ length results = 3.
Proof.
  do 2 eexists. split; [vm_compute; reflexivity|].
  apply (configuration_outside_headers_is_kept
           [Classify (VisualRecognitionV3.ArgParams {["accept_language" := VStr "es"]}) None;
            Validated OpDeleteClassifier None (Some (Handler 2));
            ListClassifiers (VisualRecognitionV3.ArgFunction (Handler 3)) None]).
  vm_compute; reflexivity.
Defined.

(** X4. For every header name, the headers a call forwards hold the string the
    call supplies under that name; where the call supplies nothing (the
    parameter is [undefined], or the operation does not set the header), they
    hold what the instance's configuration held before the call. *)
Theorem header_is_supplied_or_inherited
    (c : call) (_options _options' : obj) (p : parameters) (cb : option Callback)
    (k : string) :
  perform c _options = (Normal (RequestForwarded p cb), _options') →
  ∃ headers,
    get (defaultOptions p) "headers" = VObj headers
    ∧ get _options' "headers" = VObj headers
    ∧ (∀ s, get (call_headers c) k = VStr s → get headers k = VStr s)
    ∧ (get (call_headers c) k = VUndefined →
       get headers k = get (plain_or_empty (get _options "headers")) k).
Proof.
  intros Hrun. eexists. split; [by apply (forwarded_headers c _ _ _ _ Hrun)|].
  destruct (forwarded_configuration _ _ _ _ _ Hrun) as [Hdef Hstate].
  split; [by rewrite <- Hdef; apply (forwarded_headers c _ _ _ _ Hrun)|].
  split.
  - intros s Hs. rewrite get_extend_deep by apply call_headers_unique. by rewrite Hs.
  - intros Hnone. rewrite get_extend_deep by apply call_headers_unique. by rewrite Hnone.
Qed.

Lemma header_is_supplied_or_inherited_witness :
  ∃ p _options',
    perform (Validated OpTone
               (Some (<["tone_input" := VStr "bonjour"]>
                        (<["content_type" := VStr "text/plain"]>
                           {["content_language" := VStr "fr"]})))
               None)
            (sample_instance ToneAnalyzer)
    = (Normal (RequestForwarded p None), _options')
    ∧ get (call_headers
             (Validated OpTone
                (Some (<["tone_input" := VStr "bonjour"]>
                         (<["content_type" := VStr "text/plain"]>
                            {["content_language" := VStr "fr"]})))
                None)) "content-language" = VStr "fr"
    ∧ ∃ headers,
        get (defaultOptions p) "headers" = VObj headers
        ∧ get _options' "headers" = VObj headers
        ∧ (∀ s, get (call_headers
                       (Validated OpTone
                          (Some (<["tone_input" := VStr "bonjour"]>
                                   (<["content_type" := VStr "text/plain"]>
                                      {["content_language" := VStr "fr"]})))
                          None)) "content-language" = VStr s →
                get headers "content-language" = VStr s)
        ∧ (get (call_headers
                  (Validated OpTone
                     (Some (<["tone_input" := VStr "bonjour"]>
                              (<["content_type" := VStr "text/plain"]>
                                 {["content_language" := VStr "fr"]})))
                     None)) "content-language" = VUndefined →
           get headers "content-language"
           = get (plain_or_empty (get (sample_instance ToneAnalyzer) "headers"))
                 "content-language").
Proof.
  eexists (Parameters _ _), _.
  split; [vm_compute; reflexivity|].
  split; [by vm_compute|].
  apply (header_is_supplied_or_inherited _ (sample_instance ToneAnalyzer) _ _ None).
  vm_compute; reflexivity.
Defined.

(** X5. A header one call supplies reaches the next call that does not supply
    it, whichever two operations they are: the second request is forwarded
    with the first call's value. *)
Theorem supplied_header_reaches_next_call
    (c1 c2 : call) (_options _options' : obj) (p1 p2 : parameters)
    (cb1 cb2 : option Callback) (k s : string) :
  run [c1; c2] _options
  = ([Normal (RequestForwarded p1 cb1); Normal (RequestForwarded p2 cb2)], _options') →
  get (call_headers c1) k = VStr s →
  get (call_headers c2) k = VUndefined →
  ∃ headers, get (defaultOptions p2) "headers" = VObj headers
             ∧ get headers k = VStr s.
Proof.
  intros Hrun Hfirst Hsecond. simpl in Hrun.
  destruct (perform c1 _options) as [r1 o1] eqn:H1.
  destruct (perform c2 o1) as [r2 o2] eqn:H2. simplify_eq.
  eexists. split; [by apply (forwarded_headers c2 _ _ _ _ H2)|].
  rewrite get_extend_deep, Hsecond by apply call_headers_unique.
  destruct (forwarded_configuration _ _ _ _ _ H1) as [_ ->].
  rewrite get_extend_headers. simpl.
  rewrite get_extend_deep by apply call_headers_unique. by rewrite Hfirst.
Qed.

Lemma supplied_header_reaches_next_call_witness :
  ∃ p1 p2 _options',
    run [Validated OpTone
           (Some (<["tone_input" := VStr "bonjour"]>
                    (<["content_type" := VStr "text/plain"]>
                       {["content_language" := VStr "fr"]})))
           None;
         Validated OpToneChat (Some {["utterances" := VArr [VStr "hello"]]}) None]
        (sample_instance ToneAnalyzer)
    = ([Normal (RequestForwarded p1 None); Normal (RequestForwarded p2 None)], _options')
    ∧ ∃ headers, get (defaultOptions p2) "headers" = VObj headers
                 ∧ get headers "content-language" = VStr "fr".
Proof.
  eexists (Parameters _ _), (Parameters _ _), _.
  split; [vm_compute; reflexivity|].
  eapply (supplied_header_reaches_next_call
           (Validated OpTone
              (Some (<["tone_input" := VStr "bonjour"]>
                       (<["content_type" := VStr "text/plain"]>
                          {["content_language" := VStr "fr"]})))
              None)
           (Validated OpToneChat (Some {["utterances" := VArr [VStr "hello"]]}) None)
           (sample_instance ToneAnalyzer) _ _ _ None None);
    vm_compute; reflexivity.
Defined.

(** X6. Every request an operation forwards declares its own [accept] header,
    ['text/csv'] for [profile_csv] and ['application/json'] for all others,
    and, but for the three content operations whose [content-type] is the
    caller's, its own [content-type]: ['multipart/form-data'] for the form
    operations, ['application/json'] for the rest.  Neither is ever taken
    from an earlier call. *)
Theorem every_request_declares_accept
    (c : call) (_options _options' : obj) (p : parameters) (cb : option Callback) :
  perform c _options = (Normal (RequestForwarded p cb), _options') →
  ∃ headers,
    get (defaultOptions p) "headers" = VObj headers
    ∧ get headers "accept"
      = VStr (match c with
              | Validated OpProfileCsv _ _ => "text/csv"
              | _ => "application/json"
              end)
    ∧ match c with
      | Validated (OpProfile | OpProfileCsv | OpTone) _ _ =>
          get headers "content-type"
          = match prop (call_params c) "content_type" with
            | VUndefined => get (plain_or_empty (get _options "headers")) "content-type"
            | VObj o =>
                VObj (extend true
                        (plain_or_empty
                           (get (plain_or_empty (get _options "headers")) "content-type")) o)
            | VArr items =>
                merge_into true
                  (VArr (array_or_empty
                           (get (plain_or_empty (get _options "headers")) "content-type")))
                  (VArr items)
            | v => v
            end
      | Classify _ _ | DetectFaces _ _
      | Validated (OpCreateClassifier | OpUpdateClassifier) _ _ =>
          get headers "content-type" = VStr "multipart/form-data"
      | _ => get headers "content-type" = VStr "application/json"
      end.
Proof.
  intros Hrun. eexists. split; [by apply (forwarded_headers c _ _ _ _ Hrun)|].
  rewrite !get_extend_deep by apply call_headers_unique.
  destruct c as [[]| | |]; split; reflexivity.
Qed.

Lemma every_request_declares_accept_witness :
  ∃ p _options',
    perform (Validated OpUpdateClassifier
               (Some {["classifier_id" := VStr "dogs_1941945966"]}) None)
            [("headers", VObj [("accept", VStr "text/csv");
                               ("content-type", VStr "text/plain")])]
    = (Normal (RequestForwarded p None), _options')
    ∧ ∃ headers,
        get (defaultOptions p) "headers" = VObj headers
        ∧ get headers "accept" = VStr "application/json"
        ∧ get headers "content-type" = VStr "multipart/form-data".
Proof.
  eexists (Parameters _ _), _.
  split; [vm_compute; reflexivity|].
  eapply (every_request_declares_accept
            (Validated OpUpdateClassifier
               (Some {["classifier_id" := VStr "dogs_1941945966"]}) None)
            [("headers", VObj [("accept", VStr "text/csv");
                               ("content-type", VStr "text/plain")])]).
  vm_compute; reflexivity.
Defined.

(** ** Visual Recognition arguments *)

Lemma prop_insert_ne (P : Params) (k k' : string) (v : value) :
  k ≠ k' → prop (<[k := v]> P) k' = prop P k'.
Proof. intros Hne. unfold prop. by rewrite lookup_insert_ne. Qed.

(** X7. [classify] forwards the caller's [accept_language] under the header
    name [accept_language], with an underscore; the [accept-language] header
    the other facades use is left as the configuration held it. *)
Theorem classify_sends_accept_language_with_underscore
    (params : VisualRecognitionV3.argument) (callback : option Callback) (_options : obj) :
  ∃ p headers,
    VisualRecognitionV3.classify params callback _options
    = (Normal (RequestForwarded p (snd (VisualRecognitionV3.shift_callback params callback))),
       defaultOptions p)
    ∧ get (defaultOptions p) "headers" = VObj headers
    ∧ get headers "accept-language"
      = get (plain_or_empty (get _options "headers")) "accept-language"
    ∧ (∀ s, prop (fst (VisualRecognitionV3.shift_callback params callback)) "accept_language"
            = VStr s →
            get headers "accept_language" = VStr s).
Proof.
  unfold VisualRecognitionV3.classify.
  destruct (VisualRecognitionV3.shift_callback params callback) as [P cb].
  run_monad. eexists (Parameters _ _), _.
  split_and!; [reflexivity|apply get_extend_headers|..].
  - by rewrite get_extend_deep.
  - intros s Hs. simpl in Hs. rewrite get_extend_deep by done. simpl. by rewrite Hs.
Qed.

(** X8. The documented parameter [images_file_content_type] has no effect:
    [classify] and [detectFaces] do the same with and without it. *)
Theorem images_file_content_type_is_ignored
    (P : Params) (v : value) (callback : option Callback) (_options : obj) :
  VisualRecognitionV3.classify
    (VisualRecognitionV3.ArgParams (<["images_file_content_type" := v]> P)) callback _options
  = VisualRecognitionV3.classify (VisualRecognitionV3.ArgParams P) callback _options
  ∧ VisualRecognitionV3.detectFaces
      (VisualRecognitionV3.ArgParams (<["images_file_content_type" := v]> P)) callback _options
    = VisualRecognitionV3.detectFaces (VisualRecognitionV3.ArgParams P) callback _options.
Proof.
  unfold VisualRecognitionV3.classify, VisualRecognitionV3.detectFaces. simpl.
  by rewrite !prop_insert_ne by distinct_names.
Qed.

(** X9. A callback given as the first argument of [classify], [detectFaces] or
    [listClassifiers] is taken as the callback of a call with empty
    parameters, as is a call without parameters; these operations validate
    nothing and always forward a request. *)
Theorem callback_as_first_argument
    (operation : VisualRecognitionV3.argument → option Callback → call)
    (f : Callback) (params : VisualRecognitionV3.argument) (callback : option Callback)
    (_options : obj) :
  operation = Classify ∨ operation = DetectFaces ∨ operation = ListClassifiers →
  perform (operation (VisualRecognitionV3.ArgFunction f) None) _options
  = perform (operation (VisualRecognitionV3.ArgParams ∅) (Some f)) _options
  ∧ perform (operation VisualRecognitionV3.ArgUndefined callback) _options
    = perform (operation (VisualRecognitionV3.ArgParams ∅) callback) _options
  ∧ ∃ p cb, perform (operation params callback) _options
            = (Normal (RequestForwarded p cb), defaultOptions p).
Proof.
  intros [-> | [-> | ->]]; (split; [done|]); (split; [done|]);
    unfold_operation; destruct (VisualRecognitionV3.shift_callback _ _);
    run_monad; eexists (Parameters _ _), _; reflexivity.
Qed.

Lemma callback_as_first_argument_witness :
  perform (ListClassifiers (VisualRecognitionV3.ArgFunction (Handler 5)) None)
          (sample_instance VisualRecognition)
  = perform (ListClassifiers (VisualRecognitionV3.ArgParams ∅) (Some (Handler 5)))
            (sample_instance VisualRecognition)
  ∧ perform (ListClassifiers VisualRecognitionV3.ArgUndefined None)
            (sample_instance VisualRecognition)
    = perform (ListClassifiers (VisualRecognitionV3.ArgParams ∅) None)
              (sample_instance VisualRecognition)
  ∧ ∃ p cb, perform (ListClassifiers
                       (VisualRecognitionV3.ArgParams {["verbose" := VBool true]}) None)
                    (sample_instance VisualRecognition)
            = (Normal (RequestForwarded p cb), defaultOptions p).
Proof.
  apply (callback_as_first_argument ListClassifiers). auto.
Defined.

(** ** Classifier resources and chat tone *)

(** X10. [deleteClassifier] does what [getClassifier] does on the same
    arguments (the same validation outcome, the same path and headers), but
    for the method of the request it forwards. *)
Theorem delete_and_get_classifier_differ_in_method
    (params : option Params) (callback : option Callback) (_options : obj) :
  match invoke OpGetClassifier params callback _options with
  | (Normal (RequestForwarded p cb), _options') =>
      get (options p) "method" = VStr "GET"
      ∧ invoke OpDeleteClassifier params callback _options
        = (Normal (RequestForwarded
                     (Parameters (set (options p) "method" (VStr "DELETE"))
                                 (defaultOptions p)) cb),
           _options')
  | outcome => invoke OpDeleteClassifier params callback _options = outcome
  end.
Proof.
  destruct params as [P|], callback as [cb|]; unfold_operation; cbv zeta;
    try rewrite getMissingParams_empty; simpl;
    try destruct (reported _); run_monad; by simpl.
Qed.

(** X11. [toneChat], given its utterances, always sends JSON: the [json] flag
    is set, the body is the object holding the utterances under
    [utterances], no query parameters are built, and [content-type] is
    ['application/json'] whatever [content_type] the caller passes. *)
Theorem tone_chat_is_always_json
    (P : Params) (callback : option Callback) (_options : obj) :
  getMissingParams P (requiredParams OpToneChat) = [] →
  ∃ p headers,
    ToneAnalyzerV3.toneChat (Some P) callback _options
    = (Normal (RequestForwarded p callback), defaultOptions p)
    ∧ get (options p) "url" = VStr "/v3/tone_chat"
    ∧ get (options p) "json" = VBool true
    ∧ get (options p) "body" = VObj [("utterances", prop P "utterances")]
    ∧ has_key (options p) "qs" = false
    ∧ prop P "utterances" ≠ VUndefined
    ∧ get (defaultOptions p) "headers" = VObj headers
    ∧ get headers "content-type" = VStr "application/json".
Proof.
  intros Hvalid.
  assert (Hprovided : prop P "utterances" ≠ VUndefined).
  { apply getMissingParams_nil_iff with (k := "utterances") in Hvalid;
      [|apply list_elem_of_here].
    unfold isMissing in Hvalid. unfold prop.
    destruct (P !! "utterances") as [[]|]; simpl in *; congruence. }
  unfold ToneAnalyzerV3.toneChat. simpl in *. rewrite Hvalid. simpl.
  destruct callback; run_monad; eexists (Parameters _ _), _;
    (split_and!; [reflexivity..|done|apply get_extend_headers|by rewrite get_extend_deep]).
Qed.

Lemma tone_chat_is_always_json_witness :
  getMissingParams
    (<["utterances" := VArr [VObj [("text", VStr "hello")]]]>
       {["content_type" := VStr "text/plain"]})
    (requiredParams OpToneChat) = []
  ∧ ∃ p headers,
      ToneAnalyzerV3.toneChat
        (Some (<["utterances" := VArr [VObj [("text", VStr "hello")]]]>
                 {["content_type" := VStr "text/plain"]}))
        None (sample_instance ToneAnalyzer)
      = (Normal (RequestForwarded p None), defaultOptions p)
      ∧ get (options p) "url" = VStr "/v3/tone_chat"
      ∧ get (options p) "json" = VBool true
      ∧ get (options p) "body"
        = VObj [("utterances",
                 prop (<["utterances" := VArr [VObj [("text", VStr "hello")]]]>
                         {["content_type" := VStr "text/plain"]}) "utterances")]
      ∧ has_key (options p) "qs" = false
      ∧ prop (<["utterances" := VArr [VObj [("text", VStr "hello")]]]>
                {["content_type" := VStr "text/plain"]}) "utterances" ≠ VUndefined
      ∧ get (defaultOptions p) "headers" = VObj headers
      ∧ get headers "content-type" = VStr "application/json".
Proof.
  split; [by vm_compute|].
  apply tone_chat_is_always_json. by vm_compute.
Defined.

(** ** Repeating a call *)

Lemma set_same (t : obj) (k : string) (v : value) :
  has_key t k = true → get t k = v → set t k v = t.
Proof.
  induction t as [|[k' v'] t IH]; simpl; [done|].
  destruct (String.eqb k' k); [by intros _ ->|].
  intros Hin Hget. by rewrite IH.
Qed.

Lemma assign_scalar (t : obj) (k : string) (v : value) :
  is_scalar v = true →
  assign true t k v = if is_undefined v then t else set t k v.
Proof. by destruct v. Qed.

Lemma has_key_assign_eq (t : obj) (k : string) (v : value) :
  is_undefined v = false → has_key (assign true t k v) k = true.
Proof. destruct v; simpl; try done; intros _; apply has_key_set_eq. Qed.

Lemma has_key_extend (t src : obj) (k : string) :
  unique_keys src = true →
  is_undefined (get src k) = false →
  has_key (extend true t src) k = true.
Proof.
  revert t. induction src as [|[n c] rest IH]; intros t Huniq Hdef; [done|].
  simpl in Huniq. apply andb_true_iff in Huniq as [Hfresh Huniq].
  apply negb_true_iff in Hfresh.
  rewrite extend_cons. simpl in Hdef.
  destruct (String.eqb n k) eqn:E.
  - apply String.eqb_eq in E as ->.
    clear IH. revert Hfresh Huniq.
    generalize (has_key_assign_eq t k c Hdef). generalize (assign true t k c).
    induction rest as [|[n' c'] rest IH]; intros t' Hin Hfresh Huniq; [done|].
    rewrite extend_cons. simpl in Hfresh, Huniq.
    destruct (String.eqb n' k) eqn:E'; [done|].
    apply andb_true_iff in Huniq as [_ Huniq].
    apply IH; [by apply has_key_assign|done..].
  - by apply IH.
Qed.

Lemma has_key_elem (o : obj) (k : string) (v : value) :
  (k, v) ∈ o → has_key o k = true.
Proof.
  induction o as [|[k' v'] o IH]; [by intros ?%elem_of_nil|].
  intros [Heq|Hin]%elem_of_cons; simpl.
  - simplify_eq. by rewrite String.eqb_refl.
  - destruct (String.eqb k' k); auto.
Qed.

Lemma get_unique (o : obj) (k : string) (v : value) :
  unique_keys o = true → (k, v) ∈ o → get o k = v.
Proof.
  induction o as [|[k' v'] o IH]; [by intros _ ?%elem_of_nil|].
  simpl. intros [Hfresh Huniq]%andb_true_iff [Heq|Hin]%elem_of_cons.
  - simplify_eq. by rewrite String.eqb_refl.
  - destruct (String.eqb k' k) eqn:E; [|auto].
    apply String.eqb_eq in E as ->.
    apply has_key_elem in Hin. rewrite Hin in Hfresh. discriminate.
Qed.

Lemma extend_absorbed (t src : obj) :
  (∀ k v, (k, v) ∈ src →
          is_scalar v = true
          ∧ (is_undefined v = true ∨ has_key t k = true ∧ get t k = v)) →
  extend true t src = t.
Proof.
  induction src as [|[n c] rest IH]; intros Hsrc; [done|].
  rewrite extend_cons.
  destruct (Hsrc n c (list_elem_of_here _ _)) as [Hscalar Hheld].
  rewrite assign_scalar by done.
  assert (Hrest : extend true t rest = t).
  { apply IH. intros k v Hin. apply Hsrc. by apply list_elem_of_further. }
  destruct (is_undefined c) eqn:Hc; [done|].
  destruct Hheld as [?|[Hin Hget]]; [congruence|].
  by rewrite set_same.
Qed.

Lemma extend_idempotent (t src : obj) :
  unique_keys src = true →
  forallb (fun kv => is_scalar (snd kv)) src = true →
  extend true (extend true t src) src = extend true t src.
Proof.
  intros Huniq Hscalar. apply extend_absorbed. intros k v Hin.
  assert (Hv : is_scalar v = true).
  { rewrite forallb_forall in Hscalar.
    apply (Hscalar (k, v)). by apply list_elem_of_In. }
  split; [done|].
  destruct (is_undefined v) eqn:Hdef; [by left|right].
  pose proof (get_unique src k v Huniq Hin) as Hget.
  split.
  - apply has_key_extend; [done|]. by rewrite Hget.
  - rewrite get_extend_deep, Hget by done. by destruct v.
Qed.

(** What a call forwards, apart from the merged configuration, does not
    depend on the configuration it starts from. *)
Lemma perform_elsewhere (c : call) (_options other : obj) :
  match perform c _options with
  | (Normal (RequestForwarded p cb), _) =>
      perform c other
      = (Normal (RequestForwarded
                   (Parameters (options p)
                               (extend true other [("headers", VObj (call_headers c))]))
                   cb),
         extend true other [("headers", VObj (call_headers c))])
  | (outcome, _) => perform c other = (outcome, other)
  end.
Proof.
  destruct c as [op params callback|params callback|params callback|params callback];
    [destruct op; destruct params as [P|]|..];
    unfold call_headers, call_params; unfold_operation; cbv zeta;
    try destruct (VisualRecognitionV3.shift_callback _ _);
    try destruct (reported _); try destruct callback;
    run_monad; reflexivity.
Qed.

(** X12. Repeating a call right after itself changes nothing more: when the
    header parameters are strings (neither objects nor arrays), the repeated
    call has the outcome of the first, forwards the same descriptor and
    leaves the configuration as the first call left it. *)
Theorem repeating_a_call_changes_nothing
    (c : call) (_options _options' : obj) (outcome : completion effect) :
  perform c _options = (outcome, _options') →
  forallb (fun kv => is_scalar (snd kv)) (call_headers c) = true →
  perform c _options' = (outcome, _options').
Proof.
  intros Hrun Hscalar.
  pose proof (perform_elsewhere c _options _options') as Hagain.
  rewrite Hrun in Hagain.
  destruct outcome as [[cb missing|p cb]|e]; [done| |done].
  destruct (forwarded_configuration _ _ _ _ _ Hrun) as [Hdef Hstate].
  assert (Hfix : extend true _options' [("headers", VObj (call_headers c))] = _options').
  { rewrite Hstate at 1. rewrite extend_headers, get_extend_headers. simpl.
    rewrite extend_idempotent by (done || apply call_headers_unique).
    rewrite extend_headers, set_set. by rewrite Hstate, extend_headers. }
  rewrite Hagain, Hfix. destruct p as [opts dflt]. simpl in *. by subst.
Qed.

Lemma repeating_a_call_changes_nothing_witness :
  ∃ outcome _options',
    perform (Validated OpProfile
               (Some (<["content" := VStr "hola"]>
                        (<["content_type" := VStr "text/plain"]>
                           {["content_language" := VStr "es"]})))
               None)
            (sample_instance PersonalityInsights)
    = (outcome, _options')
    ∧ _options' ≠ sample_instance PersonalityInsights
    ∧ perform (Validated OpProfile
                 (Some (<["content" := VStr "hola"]>
                          (<["content_type" := VStr "text/plain"]>
                             {["content_language" := VStr "es"]})))
                 None)
              _options'
      = (outcome, _options').
Proof.
  do 2 eexists. split; [vm_compute; reflexivity|].
  split; [discriminate|].
  apply (repeating_a_call_changes_nothing _ (sample_instance PersonalityInsights));
    [vm_compute; reflexivity|by vm_compute].
Defined.

(** ** Classifier operations *)

Lemma provided_of_valid (P : Params) (R : list string) (k : string) :
  getMissingParams P R = [] → k ∈ R → prop P k ≠ VUndefined.
Proof.
  intros Hvalid Hk.
  pose proof (proj1 (getMissingParams_nil_iff P R) Hvalid k Hk) as Hprovided.
  unfold isMissing in Hprovided. unfold prop.
  destruct (P !! k) as [[]|]; simpl in *; congruence.
Qed.

(** X13. [createClassifier] and [updateClassifier] post their example files as
    file parts declared ['application/octet-stream'], each holding the
    caller's data as given.  [createClassifier] adds the name as a plain
    field and addresses the collection; [updateClassifier] has no name field
    and addresses one classifier through the path parameter. *)
Theorem classifier_examples_are_octet_streams
    (op : validated_operation) (P : Params) (callback cb : option Callback)
    (_options _options' : obj) (p : parameters) :
  op = OpCreateClassifier ∨ op = OpUpdateClassifier →
  invoke op (Some P) callback _options = (Normal (RequestForwarded p cb), _options') →
  ∃ formData,
    get (options p) "formData" = VObj formData
    ∧ get formData "classname_positive_examples"
      = buildRequestFileObject (prop P "classname_positive_examples")
                               "application/octet-stream"
    ∧ get formData "negative_examples"
      = buildRequestFileObject (prop P "negative_examples") "application/octet-stream"
    ∧ get (options p) "method" = VStr "POST"
    ∧ (op = OpCreateClassifier →
       get formData "name" = prop P "name"
       ∧ get (options p) "url" = VStr "/v3/classifiers"
       ∧ has_key (options p) "path" = false)
    ∧ (op = OpUpdateClassifier →
       has_key formData "name" = false
       ∧ get (options p) "url" = VStr "/v3/classifiers/{classifier_id}"
       ∧ get (options p) "path" = VObj [("classifier_id", prop P "classifier_id")]).
Proof.
  intros [-> | ->] Hrun; forwarded_descriptor Hrun;
    eexists; split_and!; try reflexivity; intros; try discriminate; by split_and!.
Qed.

Lemma classifier_examples_are_octet_streams_witness :
  ∃ p _options',
    invoke OpCreateClassifier
      (Some (<["name" := VStr "dogs"]> {["classname_positive_examples" := VRef 4]}))
      (Some (Handler 6)) (sample_instance VisualRecognition)
    = (Normal (RequestForwarded p (Some (Handler 6))), _options')
    ∧ ∃ formData,
        get (options p) "formData" = VObj formData
        ∧ get formData "classname_positive_examples"
          = buildRequestFileObject
              (prop (<["name" := VStr "dogs"]> {["classname_positive_examples" := VRef 4]})
                    "classname_positive_examples")
              "application/octet-stream"
        ∧ get formData "negative_examples"
          = buildRequestFileObject
              (prop (<["name" := VStr "dogs"]> {["classname_positive_examples" := VRef 4]})
                    "negative_examples")
              "application/octet-stream"
        ∧ get (options p) "method" = VStr "POST"
        ∧ (OpCreateClassifier = OpCreateClassifier →
           get formData "name"
           = prop (<["name" := VStr "dogs"]> {["classname_positive_examples" := VRef 4]})
                  "name"
           ∧ get (options p) "url" = VStr "/v3/classifiers"
           ∧ has_key (options p) "path" = false)
        ∧ (OpCreateClassifier = OpUpdateClassifier →
           has_key formData "name" = false
           ∧ get (options p) "url" = VStr "/v3/classifiers/{classifier_id}"
           ∧ get (options p) "path"
             = VObj [("classifier_id",
                      prop (<["name" := VStr "dogs"]>
                              {["classname_positive_examples" := VRef 4]})
                           "classifier_id")]).
Proof.
  eexists (Parameters _ _), _.
  split; [vm_compute; reflexivity|].
  eapply (classifier_examples_are_octet_streams OpCreateClassifier _ (Some (Handler 6))
           (Some (Handler 6)) (sample_instance VisualRecognition));
    [by left|vm_compute; reflexivity].
Defined.

(** X14. With a callback, a request for one classifier ([getClassifier],
    [deleteClassifier], [updateClassifier]) is forwarded only with a defined
    [classifier_id] in its path parameters, so the placeholder of the URL
    always has a value; the callback goes with it. *)
Theorem forwarded_classifier_id_is_defined
    (op : validated_operation) (params : option Params) (cb : Callback)
    (c : option Callback) (_options _options' : obj) (p : parameters) :
  op = OpDeleteClassifier ∨ op = OpGetClassifier ∨ op = OpUpdateClassifier →
  invoke op params (Some cb) _options = (Normal (RequestForwarded p c), _options') →
  ∃ P,
    params = Some P
    ∧ c = Some cb
    ∧ get (options p) "url" = VStr "/v3/classifiers/{classifier_id}"
    ∧ get (options p) "path" = VObj [("classifier_id", prop P "classifier_id")]
    ∧ prop P "classifier_id" ≠ VUndefined.
Proof.
  intros Hop Hrun. destruct params as [P|];
    [|rewrite absent_params_reported_to_callback in Hrun; discriminate].
  exists P.
  destruct (reported (getMissingParams P (requiredParams op))) eqn:Hrep;
    [rewrite (invoke_reports op P cb _options Hrep) in Hrun; discriminate|].
  apply reported_false_nil in Hrep.
  assert (Hid : prop P "classifier_id" ≠ VUndefined).
  { apply (provided_of_valid P (requiredParams op)); [done|].
    destruct Hop as [-> | [-> | ->]]; apply list_elem_of_here. }
  destruct Hop as [-> | [-> | ->]]; forwarded_descriptor Hrun; by split_and!.
Qed.

Lemma forwarded_classifier_id_is_defined_witness :
  ∃ p _options',
    invoke OpDeleteClassifier (Some {["classifier_id" := VStr "dogs_1941945966"]})
           (Some (Handler 8)) (sample_instance VisualRecognition)
    = (Normal (RequestForwarded p (Some (Handler 8))), _options')
    ∧ ∃ P,
        Some ({["classifier_id" := VStr "dogs_1941945966"]} : Params) = Some P
        ∧ Some (Handler 8) = Some (Handler 8)
        ∧ get (options p) "url" = VStr "/v3/classifiers/{classifier_id}"
        ∧ get (options p) "path" = VObj [("classifier_id", prop P "classifier_id")]
        ∧ prop P "classifier_id" ≠ VUndefined.
Proof.
  eexists (Parameters _ _), _.
  split; [vm_compute; reflexivity|].
  eapply (forwarded_classifier_id_is_defined OpDeleteClassifier _ (Handler 8) _
           (sample_instance VisualRecognition));
    [by left|vm_compute; reflexivity].
Defined.

(** ** The version date across calls *)

Lemma run_forwarded_keeps
    (calls : list call) (_options _options' : obj) (results : list (completion effect))
    (p : parameters) (cb : option Callback) (k : string) :
  run calls _options = (results, _options') →
  Normal (RequestForwarded p cb) ∈ results →
  k ≠ "headers" →
  get (defaultOptions p) k = get _options k.
Proof.
  revert _options _options' results.
  induction calls as [|c rest IH]; intros o o' rs Hrun Hin Hk.
  - simpl in Hrun. simplify_eq. by apply elem_of_nil in Hin.
  - rewrite run_cons in Hrun. simplify_eq.
    destruct (perform c o) as [r o1] eqn:Hc. simpl in Hin.
    destruct (run rest o1) as [rs o2] eqn:Hrest. simpl in Hin.
    apply elem_of_cons in Hin as [<-|Hin].
    + destruct (forwarded_configuration _ _ _ _ _ Hc) as [-> _].
      by apply (operations_change_headers_only c o o1 _ k Hc).
    + rewrite (IH _ _ _ Hrest Hin Hk).
      by apply (operations_change_headers_only c o o1 r k Hc).
Qed.

(** X15. The version date given at construction is pinned: every request any
    later call on the instance forwards has it as [qs.version] in its default
    options, and the [version_date] option is unchanged. *)
Theorem version_date_is_on_every_request
    (f : facade) (options _options _options' : obj) (calls : list call)
    (results : list (completion effect)) (p : parameters) (cb : option Callback) :
  unique_keys options = true →
  get options "qs" = VUndefined →
  construct f options = Normal _options →
  run calls _options = (results, _options') →
  Normal (RequestForwarded p cb) ∈ results →
  get options "version_date" ≠ VUndefined
  ∧ get (defaultOptions p) "version_date" = get options "version_date"
  ∧ ∃ qs, get (defaultOptions p) "qs" = VObj qs
          ∧ get qs "version" = get options "version_date".
Proof.
  intros Huniq Hqs Hnew Hrun Hin.
  destruct (construct_unfold f options) as [URL Hctor]. rewrite Hnew in Hctor.
  rewrite BaseService_version_date in Hctor by done.
  destruct (is_undefined (get options "version_date")) eqn:Hdate; [discriminate|].
  unfold set_qs_version in Hctor. rewrite BaseService_qs in Hctor by done.
  simplify_eq.
  rewrite !(run_forwarded_keeps _ _ _ _ _ _ _ Hrun Hin) by distinct_names.
  split_and!.
  - by destruct (get options "version_date").
  - rewrite get_set_ne by distinct_names. by apply BaseService_version_date.
  - eexists. split; [apply get_set_eq|done].
Qed.

Lemma version_date_is_on_every_request_witness :
  ∃ _options results _options' p,
    unique_keys sample_options = true
    ∧ get sample_options "qs" = VUndefined
    ∧ construct ToneAnalyzer sample_options = Normal _options
    ∧ run [Validated OpTone None (Some (Handler 1));
           Validated OpToneChat (Some {["utterances" := VArr [VStr "hello"]]}) None]
          _options
      = (results, _options')
    ∧ Normal (RequestForwarded p None) ∈ results
    ∧ get sample_options "version_date" ≠ VUndefined
    ∧ get (defaultOptions p) "version_date" = get sample_options "version_date"
    ∧ ∃ qs, get (defaultOptions p) "qs" = VObj qs
            ∧ get qs "version" = get sample_options "version_date".
Proof.
  eexists _, _, _, (Parameters _ _).
  split; [reflexivity|]. split; [reflexivity|]. split; [reflexivity|].
  split; [vm_compute; reflexivity|].
  split; [apply list_elem_of_further, list_elem_of_here|].
  eapply (version_date_is_on_every_request ToneAnalyzer sample_options _ _
            [Validated OpTone None (Some (Handler 1));
             Validated OpToneChat (Some {["utterances" := VArr [VStr "hello"]]}) None]);
    [reflexivity|reflexivity|reflexivity|vm_compute; reflexivity
    |apply list_elem_of_further, list_elem_of_here].
Defined.
